(** * The workshop notebooks: identity setup, bucket setup, workflow DAG,
      feature preprocessing

    The repository is a set of Jupyter notebooks.  Each code cell is a short
    sequence of Python statements run against the kernel's namespace; the
    statements call into boto3, Airflow, the SageMaker SDK and Keras.

    The development has three parts.
    - A small model of what the notebooks use of Python: values, the
      exceptions that occur, the kernel (namespace, printed output, the log
      of requests sent to external services) and a state-and-exception
      monad [py] in which every cell is written statement by statement.
    - The cells of the IAM, bucket and DAG notebooks, in the order of the
      source files.
    - The preprocessing layers the featurization notebook configures, as
      functions on batches.

    External services are not part of the repository.  A request to them is
    answered by a [World]: an arbitrary deterministic state machine.  Airflow's
    task graph is kept in the kernel, because the DAG notebook's purpose is to
    build it. *)

From stdpp Require Import gmap strings list.
From Stdlib Require Import ZArith QArith Qround Qcanon Ascii Lqa Sorted.

Local Close Scope Qc_scope.
Local Close Scope Q_scope.
Local Close Scope Z_scope.
Local Open Scope string_scope.
Local Open Scope list_scope.
Set Warnings "-register-all,-abstract-large-number".

(** ** Python values *)

(** The error a service answers a rejected request with.  botocore raises it
    as [ClientError]; [e.response['Error']['Code']] is [err_code]. *)
Record client_error := {
  err_code : string;
  err_message : string;
  err_operation : string
}.

Inductive value :=
| VNone
| VBool (b : bool)
| VInt (n : Z)
| VStr (s : string)
| VList (vs : list value)
| VDict (kvs : list (string * value))
| VModule (name : string)            (* bound by [import name] *)
| VMember (module name : string)     (* bound by [from module import name] *)
| VObj (handle : string)             (* an object owned by an external library *)
| VDag (dag_id : string) (kwargs : list (string * value))
                                     (* airflow.DAG, with its arguments *)
| VTask (task_id : string)           (* an Airflow operator instance *)
| VExc (e : client_error).           (* the [e] of [except ClientError as e] *)

Inductive exn :=
| NameError (name : string)
| TypeError (what : string)
| KeyError (key : string)
| IndexError (what : string)
| AttributeError (attr : string)
| SyntaxError (msg : string)
| UsageError (msg : string)          (* raised by IPython magics *)
| AirflowException (msg : string)
| ClientError (e : client_error).

Inductive result (A : Type) :=
| Done (a : A)
| Raise (e : exn).
Arguments Done {A} a.
Arguments Raise {A} e.

(** ** External services *)

Inductive request :=
| Call (callee : value) (args : list value) (kwargs : list (string * value))
| Invoke (receiver : value) (method : string)
         (args : list value) (kwargs : list (string * value))
| GetAttr (receiver : value) (attr : string).

(** A request reaches the service and is either answered or rejected with an
    error code.  Failures that keep a request from reaching the service (no
    credentials, no network) are outside the model. *)
Inductive outcome :=
| Returned (v : value)
| Rejected (e : client_error).

Class World := {
  wstate : Type;
  serve : request → wstate → outcome * wstate;
  (* the text of a value that is not a string, as [str] and [print] give it *)
  repr : value → string;
  json_dumps : value → string
}.

(** ** Airflow's task graph *)

Record task := {
  task_operator : string;                 (* the operator class *)
  task_kwargs : list (string * value)     (* the constructor's keywords *)
}.

Record airflow := {
  dags : gset string;
  tasks : gmap string task;               (* by task_id *)
  edges : gset (string * string)          (* (upstream, downstream) *)
}.

Definition no_airflow : airflow :=
  {| dags := ∅; tasks := ∅; edges := ∅ |}.

(** ** The kernel *)

Inductive event :=
| Requested (r : request) (o : outcome)
| Shell (command : string).

Record kernel `{World} := {
  ns : gmap string value;        (* the interactive namespace *)
  out : list string;             (* lines printed so far *)
  log : list event;              (* requests to external services, in order *)
  flow : airflow;
  stored : gmap string value;    (* IPython's %store *)
  world : wstate
}.

Definition fresh_kernel `{World} (w : wstate) : kernel :=
  {| ns := ∅; out := []; log := []; flow := no_airflow; stored := ∅; world := w |}.

Section Python.
Context `{World}.

Definition py (A : Type) : Type := kernel → result A * kernel.

Definition unit_py {A} (a : A) : py A := λ k, (Done a, k).

Definition bind_py {A B} (c : py A) (f : A → py B) : py B :=
  λ k, match c k with
       | (Done a, k') => f a k'
       | (Raise e, k') => (Raise e, k')
       end.

Definition raise {A} (e : exn) : py A := λ k, (Raise e, k).

#[export] Instance py_ret : MRet py := @unit_py.
#[export] Instance py_bind : MBind py := λ A B f c, bind_py c f.

(** *** Names *)

Definition set_ns (f : gmap string value → gmap string value) (k : kernel) : kernel :=
  {| ns := f (ns k); out := out k; log := log k; flow := flow k;
     stored := stored k; world := world k |}.

Definition load (x : string) : py value :=
  λ k, match ns k !! x with
       | Some v => (Done v, k)
       | None => (Raise (NameError x), k)
       end.

Definition assign (x : string) (v : value) : py unit :=
  λ k, (Done tt, set_ns (insert x v) k).

(** *** print, str, format *)

Definition str_client_error (e : client_error) : string :=
  "An error occurred (" +:+ err_code e +:+ ") when calling the "
  +:+ err_operation e +:+ " operation: " +:+ err_message e.

Definition str (v : value) : string :=
  match v with
  | VStr s => s
  | VNone => "None"
  | VBool true => "True"
  | VBool false => "False"
  | VExc e => str_client_error e
  | _ => repr v
  end.

Definition print (v : value) : py unit :=
  λ k, (Done tt,
        {| ns := ns k; out := out k ++ [str v]; log := log k; flow := flow k;
           stored := stored k; world := world k |}).

(** Replace each occurrence of the two-character placeholder [c1 c2] by the
    next argument; [None] when the arguments run out. *)
Fixpoint fill (c1 c2 : ascii) (template : string) (args : list string)
  : option (string * list string) :=
  match template with
  | EmptyString => Some (EmptyString, args)
  | String a rest =>
      match rest with
      | String b rest' =>
          if (Ascii.eqb a c1 && Ascii.eqb b c2)%bool then
            match args with
            | [] => None
            | x :: args' =>
                match fill c1 c2 rest' args' with
                | Some (s, unused) => Some (x +:+ s, unused)
                | None => None
                end
            end
          else
            match fill c1 c2 rest args with
            | Some (s, unused) => Some (String a s, unused)
            | None => None
            end
      | EmptyString => Some (String a EmptyString, args)
      end
  end.

(** [template.format(a, b, ...)]: surplus arguments are ignored. *)
Definition format (template : string) (args : list value) : py value :=
  match fill "{" "}" template (map str args) with
  | Some (s, _) => mret (VStr s)
  | None => raise (IndexError "Replacement index out of range")
  end.

(** [template % arg] with [%s] placeholders and a single argument. *)
Definition percent (template : string) (arg : value) : py value :=
  match fill "%" "s" template [str arg] with
  | Some (s, []) => mret (VStr s)
  | Some (_, _ :: _) => raise (TypeError "not all arguments converted")
  | None => raise (TypeError "not enough arguments for format string")
  end.

(** [a + b] on strings. *)
Definition add (a b : value) : py value :=
  match a, b with
  | VStr s, VStr t => mret (VStr (s +:+ t))
  | VInt m, VInt n => mret (VInt (m + n))
  | _, _ => raise (TypeError "unsupported operand type(s) for +")
  end.

(** *** Subscripts and attributes *)

Fixpoint assoc (key : string) (kvs : list (string * value)) : option value :=
  match kvs with
  | [] => None
  | (k', v) :: rest => if String.eqb key k' then Some v else assoc key rest
  end.

Definition subscript (v : value) (key : string) : py value :=
  match v with
  | VDict kvs =>
      match assoc key kvs with
      | Some x => mret x
      | None => raise (KeyError key)
      end
  | _ => raise (TypeError "object is not subscriptable")
  end.

Definition error_response (e : client_error) : value :=
  VDict [("Error", VDict [("Code", VStr (err_code e));
                          ("Message", VStr (err_message e))])].

Definition ask (r : request) : py value :=
  λ k, let '(o, w) := serve r (world k) in
       let k' := {| ns := ns k; out := out k; log := log k ++ [Requested r o];
                    flow := flow k; stored := stored k; world := w |} in
       match o with
       | Returned v => (Done v, k')
       | Rejected e => (Raise (ClientError e), k')
       end.

Definition is_foreign (v : value) : bool :=
  match v with
  | VModule _ | VMember _ _ | VObj _ => true
  | _ => false
  end.

Definition getattr (v : value) (attr : string) : py value :=
  match v with
  | VExc e =>
      if String.eqb attr "response" then mret (error_response e)
      else raise (AttributeError attr)
  | _ => if is_foreign v then ask (GetAttr v attr) else raise (AttributeError attr)
  end.

(** *** Airflow: DAG and operator constructors, dependency setters *)

Definition set_flow (f : airflow → airflow) (k : kernel) : kernel :=
  {| ns := ns k; out := out k; log := log k; flow := f (flow k);
     stored := stored k; world := world k |}.

Definition operator_classes : list string :=
  ["DummyOperator"; "SageMakerProcessingOperator"; "SageMakerTrainingOperator";
   "SageMakerModelOperator"; "SageMakerEndpointOperator"].

Definition is_operator_class (name : string) : bool :=
  existsb (String.eqb name) operator_classes.

(** [DAG(dag_id, ...)] *)
Definition new_dag (args : list value) (kwargs : list (string * value)) : py value :=
  match args with
  | VStr dag_id :: _ =>
      λ k, (Done (VDag dag_id kwargs),
            set_flow (λ a, {| dags := {[dag_id]} ∪ dags a; tasks := tasks a;
                               edges := edges a |}) k)
  | _ => raise (TypeError "DAG() needs a dag_id")
  end.

(** An argument that is given, and is not [None]. *)
Definition given (kwargs : list (string * value)) (key : string) : bool :=
  match assoc key kwargs with
  | None | Some VNone => false
  | Some _ => true
  end.

(** A task gets its start date from its own arguments, from its DAG's, or
    from the DAG's [default_args]. *)
Definition has_start_date (dag_kwargs task_kwargs : list (string * value)) : bool :=
  given task_kwargs "start_date"
  || given dag_kwargs "start_date"
  || match assoc "default_args" dag_kwargs with
     | Some (VDict defaults) => given defaults "start_date"
     | _ => false
     end.

(** [Operator(task_id=..., dag=dag, ...)]: the task is registered under its
    task_id in the DAG, which refuses a task without a start date. *)
Definition new_task (cls : string) (kwargs : list (string * value)) : py value :=
  match assoc "task_id" kwargs, assoc "dag" kwargs with
  | Some (VStr task_id), Some (VDag _ dag_kwargs) =>
      if has_start_date dag_kwargs kwargs then
        λ k, (Done (VTask task_id),
              set_flow (λ a, {| dags := dags a;
                                 tasks := <[task_id := {| task_operator := cls;
                                                          task_kwargs := kwargs |}]> (tasks a);
                                 edges := edges a |}) k)
      else raise (AirflowException "Task is missing the start_date parameter")
  | _, _ => raise (TypeError "operator needs task_id and dag")
  end.

Definition add_edge (up down : string) : py value :=
  λ k, (Done VNone,
        set_flow (λ a, {| dags := dags a; tasks := tasks a;
                           edges := {[(up, down)]} ∪ edges a |}) k).

(** [t.set_upstream(u)] and [t.set_downstream(d)] *)
Definition set_upstream (t : string) (args : list value) : py value :=
  match args with
  | [VTask u] => add_edge u t
  | _ => raise (AttributeError "task_id")
  end.

Definition set_downstream (t : string) (args : list value) : py value :=
  match args with
  | [VTask d] => add_edge t d
  | _ => raise (AttributeError "task_id")
  end.

(** *** Calls *)

Definition call (f : value) (args : list value) (kwargs : list (string * value))
  : py value :=
  match f with
  | VMember m name =>
      if (String.eqb m "airflow" && String.eqb name "DAG")%bool then new_dag args kwargs
      else if is_operator_class name then new_task name kwargs
      else ask (Call f args kwargs)
  | VObj _ => ask (Call f args kwargs)
  | _ => raise (TypeError "object is not callable")
  end.

Definition dict_get (kvs : list (string * value)) (args : list value) : py value :=
  match args with
  | [VStr key] => mret (default VNone (assoc key kvs))
  | _ => raise (TypeError "get expected a string key")
  end.

Definition invoke (o : value) (m : string) (args : list value)
    (kwargs : list (string * value)) : py value :=
  match o with
  | VTask t =>
      if String.eqb m "set_upstream" then set_upstream t args
      else if String.eqb m "set_downstream" then set_downstream t args
      else raise (AttributeError m)
  | VStr s =>
      if String.eqb m "format" then format s args else raise (AttributeError m)
  | VDict kvs =>
      if String.eqb m "get" then dict_get kvs args else raise (AttributeError m)
  | VModule name =>
      if (String.eqb name "json" && String.eqb m "dumps")%bool then
        match args with
        | [v] => mret (VStr (json_dumps v))
        | _ => raise (TypeError "dumps() takes 1 positional argument")
        end
      else ask (Invoke o m args kwargs)
  | VMember _ _ | VObj _ => ask (Invoke o m args kwargs)
  | _ => raise (AttributeError m)
  end.

(** Whether looking up method [m] on [v] succeeds; on an external object the
    lookup is left to the call. *)
Definition has_method (v : value) (m : string) : bool :=
  match v with
  | VTask _ => String.eqb m "set_upstream" || String.eqb m "set_downstream"
  | VStr _ => String.eqb m "format"
  | VDict _ => String.eqb m "get"
  | VModule _ | VMember _ _ | VObj _ => true
  | _ => false
  end.

(** *** Expressions, evaluated left to right *)

Definition name (x : string) : py value := load x.
Definition lit (v : value) : py value := mret v.

Fixpoint eval_args (es : list (py value)) : py (list value) :=
  match es with
  | [] => mret []
  | e :: es' => v ← e; vs ← eval_args es'; mret (v :: vs)
  end.

Fixpoint eval_fields (fs : list (string * py value)) : py (list (string * value)) :=
  match fs with
  | [] => mret []
  | (x, e) :: fs' => v ← e; vs ← eval_fields fs'; mret ((x, v) :: vs)
  end.

Definition dict (fs : list (string * py value)) : py value :=
  kvs ← eval_fields fs; mret (VDict kvs).

Definition apply (f : py value) (args : list (py value))
    (kwargs : list (string * py value)) : py value :=
  fv ← f; vs ← eval_args args; kvs ← eval_fields kwargs; call fv vs kvs.

(** [o.m(args)]: the receiver, then the lookup of [m] on it, then the
    arguments, then the call. *)
Definition method (o : py value) (m : string) (args : list (py value))
    (kwargs : list (string * py value)) : py value :=
  ov ← o;
  if has_method ov m
  then vs ← eval_args args; kvs ← eval_fields kwargs; invoke ov m vs kvs
  else raise (AttributeError m).

Definition attr (o : py value) (a : string) : py value :=
  ov ← o; getattr ov a.

Definition item (o : py value) (key : string) : py value :=
  ov ← o; subscript ov key.

Definition plus (a b : py value) : py value :=
  av ← a; bv ← b; add av bv.

Definition modulo (template : string) (arg : py value) : py value :=
  v ← arg; percent template v.

Definition equals_str (e : py value) (s : string) : py bool :=
  v ← e; mret (match v with VStr t => String.eqb t s | _ => false end).

(** *** Statements *)

Definition set (x : string) (e : py value) : py unit :=
  v ← e; assign x v.

Definition expr (e : py value) : py unit :=
  _ ← e; mret tt.

Definition print_ (e : py value) : py unit :=
  v ← e; print v.

Definition if_ (c : py bool) (then_ else_ : py unit) : py unit :=
  b ← c; if b : bool then then_ else else_.

Definition is_class (v : value) : bool :=
  match v with
  | VMember _ _ => true
  | _ => false
  end.

Definition is_ClientError_class (v : value) : bool :=
  match v with
  | VMember m n =>
      String.eqb n "ClientError"
      && (String.eqb m "botocore.exceptions" || String.eqb m "botocore.client")
  | _ => false
  end.

(** [try: body except cls as target: handler].  The class expression is
    evaluated when an exception reaches the clause; [target] is bound for the
    handler and unbound when the handler is left. *)
Definition try_except (body : py unit) (cls target : string) (handler : py unit)
  : py unit :=
  λ k, match body k with
       | (Done a, k1) => (Done a, k1)
       | (Raise ex, k1) =>
           match ns k1 !! cls with
           | None => (Raise (NameError cls), k1)
           | Some c =>
               if is_class c then
                 match ex with
                 | ClientError e =>
                     if is_ClientError_class c then
                       let '(r, k2) := handler (set_ns (insert target (VExc e)) k1) in
                       (r, set_ns (delete target) k2)
                     else (Raise ex, k1)
                 | _ => (Raise ex, k1)
                 end
               else
                 (Raise (TypeError "catching classes that do not inherit from BaseException is not allowed"),
                  k1)
           end
       end.

(** IPython: [%store x] and [!command $x] *)

Definition persist (x : string) (v : value) : py unit :=
  λ k, (Done tt,
        {| ns := ns k; out := out k; log := log k; flow := flow k;
           stored := <[x := v]> (stored k); world := world k |}).

(** [%store x]; the line the magic itself displays is not part of [out]. *)
Definition magic_store (x : string) : py unit :=
  λ k, match ns k !! x with
       | Some v => persist x v k
       | None => (Raise (UsageError ("Unknown variable '" +:+ x +:+ "'")), k)
       end.

Definition shell (command variable : string) : py unit :=
  λ k, let arg := match ns k !! variable with
                  | Some v => str v
                  | None => "$" +:+ variable
                  end in
       (Done tt,
        {| ns := ns k; out := out k; log := log k ++ [Shell (command +:+ arg)];
           flow := flow k; stored := stored k; world := world k |}).

(** *** Cells

    A cell is compiled as a whole before any of its statements runs, so a
    statement that does not parse makes the cell raise [SyntaxError] with no
    effect.  The one construct of the notebooks whose concrete syntax matters
    is the target list of [from m import ...], kept as tokens (comments are
    dropped by the tokenizer). *)

Inductive token := NAME (s : string) | COMMA | LPAR | RPAR | STAR.

(** [NAME (',' NAME)*]: the names and the remaining tokens. *)
Fixpoint import_names (ts : list token) : list string * list token :=
  match ts with
  | NAME x :: ts' =>
      match ts' with
      | COMMA :: (NAME _ :: _) as more =>
          let '(xs, r) := import_names more in (x :: xs, r)
      | _ => ([x], ts')
      end
  | _ => ([], ts)
  end.

(** The grammar's [import_from_targets]: a trailing comma is accepted only
    inside parentheses. *)
Definition import_from_targets (ts : list token) : result (list string) :=
  match ts with
  | LPAR :: inner =>
      match import_names inner with
      | (x :: xs, [RPAR]) | (x :: xs, [COMMA; RPAR]) => Done (x :: xs)
      | _ => Raise (SyntaxError "invalid syntax")
      end
  | _ =>
      match import_names ts with
      | (x :: xs, []) => Done (x :: xs)
      | (_ :: _, [COMMA]) =>
          Raise (SyntaxError "trailing comma not allowed without surrounding parentheses")
      | _ => Raise (SyntaxError "invalid syntax")
      end
  end.

Definition stmt : Type := result (py unit).
Definition cell : Type := list stmt.

Definition exec (p : py unit) : stmt := Done p.

(** The modules the notebooks import are taken to be installed. *)
Definition import (module : string) : stmt :=
  Done (assign module (VModule module)).

Fixpoint bind_members (module : string) (names : list string) : py unit :=
  match names with
  | [] => mret tt
  | x :: names' => assign x (VMember module x) ;; bind_members module names'
  end.

Definition from_import (module : string) (targets : list token) : stmt :=
  match import_from_targets targets with
  | Done names => Done (bind_members module names)
  | Raise e => Raise e
  end.

Fixpoint compile (c : cell) : result (py unit) :=
  match c with
  | [] => Done (mret tt)
  | Raise e :: _ => Raise e
  | Done p :: c' =>
      match compile c' with
      | Done q => Done (p ;; q)
      | Raise e => Raise e
      end
  end.

Definition run_cell (c : cell) : py unit :=
  match compile c with
  | Done p => p
  | Raise e => raise e
  end.

(** Running the cells one after the other, as a reader of the notebook does:
    a cell that raises leaves the kernel as it is at that point, and the next
    cell is run in it. *)
Fixpoint run_cells (cs : list cell) (k : kernel) : list (result unit) * kernel :=
  match cs with
  | [] => ([], k)
  | c :: cs' =>
      let '(r, k1) := run_cell c k in
      let '(rs, k2) := run_cells cs' k1 in
      (r :: rs, k2)
  end.

(** "Run All": execution stops at the first cell that raises. *)
Fixpoint run_all (cs : list cell) : py unit :=
  match cs with
  | [] => mret tt
  | c :: cs' => run_cell c ;; run_all cs'
  end.

End Python.

Notation "x ::= e" := (exec (set x e)) (at level 70, no associativity).

Definition strs (l : list string) : value := VList (map VStr l).

(** ** 10_pipeline/airflow/00_Create_S3_Bucket.ipynb *)

Module Create_S3_Bucket.
Section Cells.
Context `{World}.

Definition public_access_block : list (string * py value) :=
  [("BlockPublicAcls", lit (VBool true));
   ("IgnorePublicAcls", lit (VBool true));
   ("BlockPublicPolicy", lit (VBool true));
   ("RestrictPublicBuckets", lit (VBool true))].

Definition cell_create : cell := [
  import "boto3";
  "session" ::= method (attr (name "boto3") "session") "Session" [] [];
  "region" ::= attr (name "session") "region_name";
  "account_id" ::=
    method (method (method (name "boto3") "client" [lit (VStr "sts")] [])
                   "get_caller_identity" [] [])
           "get" [lit (VStr "Account")] [];
  "airflow_bucket_name" ::=
    plus (plus (plus (lit (VStr "airflow-")) (name "region")) (lit (VStr "-")))
         (name "account_id");
  "s3" ::=
    method (method (name "boto3") "Session" [] []) "client" []
           [("service_name", lit (VStr "s3")); ("region_name", name "region")];
  exec (expr (method (name "s3") "create_bucket" []
                     [("Bucket", name "airflow_bucket_name")]));
  "response" ::=
    method (name "s3") "put_public_access_block" []
           [("Bucket", name "airflow_bucket_name");
            ("PublicAccessBlockConfiguration", dict public_access_block)]
].

Definition cell_paths : cell := [
  "s3_mwaa_private_path" ::=
    method (lit (VStr "s3://{}")) "format" [name "airflow_bucket_name"] [];
  "s3_mwaa_dags_private_path" ::=
    method (lit (VStr "s3://{}/dags")) "format" [name "airflow_bucket_name"] [];
  "s3_mwaa_pipeline_private_path" ::=
    method (lit (VStr "s3://{}/dags/pipeline")) "format" [name "airflow_bucket_name"] [];
  exec (print_ (name "s3_mwaa_private_path"))
].

Definition cell_flag : cell := [
  "setup_s3_bucket_passed" ::= lit (VBool false)
].

Definition cell_print_bucket : cell := [
  exec (print_ (method (lit (VStr "Default bucket: {}")) "format"
                       [name "airflow_bucket_name"] []))
].

Definition cell_store_paths : cell := [
  exec (magic_store "airflow_bucket_name");
  exec (magic_store "s3_mwaa_private_path");
  exec (magic_store "s3_mwaa_dags_private_path");
  exec (magic_store "s3_mwaa_pipeline_private_path")
].

Definition cell_ls : cell := [
  exec (shell "aws s3 ls " "s3_mwaa_private_path")
].

Definition cell_verify : cell := [
  from_import "botocore.client" [NAME "ClientError"];
  "response" ::= lit VNone;
  exec (try_except
          (set "response" (method (name "s3") "head_bucket" []
                                  [("Bucket", name "airflow_bucket_name")]) ;;
           print_ (name "response") ;;
           set "setup_s3_bucket_passed" (lit (VBool true)))
          "ClientError" "e"
          (print_ (method (lit (VStr "[ERROR] Cannot find bucket {} in {} due to {}."))
                          "format"
                          [name "airflow_bucket_name"; name "response"; name "e"] [])))
].

Definition cell_store_flag : cell := [
  exec (magic_store "setup_s3_bucket_passed")
].

(** The [%%html] and [%%javascript] cells are rendered by the browser and run
    no Python; the last cell is empty. *)
Definition cell_html : cell := [].
Definition cell_javascript : cell := [].
Definition cell_empty : cell := [].

Definition notebook : list cell :=
  [cell_create; cell_paths; cell_flag; cell_print_bucket; cell_store_paths;
   cell_ls; cell_verify; cell_store_flag; cell_html; cell_javascript; cell_empty].

End Cells.
End Create_S3_Bucket.

(** ** 04_ingest/archive/IAM_Redshift.ipynb *)

Module IAM_Redshift.

Definition allow (actions resources : list string) : value :=
  VDict [("Effect", VStr "Allow");
         ("Action", strs actions);
         ("Resource", strs resources)].

Definition assume_role_policy_doc : value :=
  VDict [("Version", VStr "2012-10-17");
         ("Statement",
          VList [VDict [("Effect", VStr "Allow");
                        ("Principal", VDict [("Service", VStr "redshift.amazonaws.com")]);
                        ("Action", VStr "sts:AssumeRole")]])].

Definition my_redshift_to_s3 : value :=
  VDict [("Version", VStr "2012-10-17");
         ("Statement",
          VList [VDict [("Effect", VStr "Allow");
                        ("Action", VStr "s3:*");
                        ("Resource", VStr "*")]])].

Definition my_redshift_to_athena : value :=
  VDict [("Version", VStr "2012-10-17");
         ("Statement",
          VList [
            allow ["athena:*"] ["*"];
            allow ["glue:CreateDatabase"; "glue:DeleteDatabase"; "glue:GetDatabase";
                   "glue:GetDatabases"; "glue:UpdateDatabase"; "glue:CreateTable";
                   "glue:DeleteTable"; "glue:BatchDeleteTable"; "glue:UpdateTable";
                   "glue:GetTable"; "glue:GetTables"; "glue:BatchCreatePartition";
                   "glue:CreatePartition"; "glue:DeletePartition";
                   "glue:BatchDeletePartition"; "glue:UpdatePartition";
                   "glue:GetPartition"; "glue:GetPartitions"; "glue:BatchGetPartition"]
                  ["*"];
            allow ["s3:GetBucketLocation"; "s3:GetObject"; "s3:ListBucket";
                   "s3:ListBucketMultipartUploads"; "s3:ListMultipartUploadParts";
                   "s3:AbortMultipartUpload"; "s3:CreateBucket"; "s3:PutObject"]
                  ["arn:aws:s3:::aws-athena-query-results-*"];
            allow ["s3:GetObject"; "s3:ListBucket"] ["arn:aws:s3:::athena-examples*"];
            allow ["s3:ListBucket"; "s3:GetBucketLocation"; "s3:ListAllMyBuckets"] ["*"];
            allow ["sns:ListTopics"; "sns:GetTopicAttributes"] ["*"];
            allow ["cloudwatch:PutMetricAlarm"; "cloudwatch:DescribeAlarms";
                   "cloudwatch:DeleteAlarms"] ["*"];
            allow ["lakeformation:GetDataAccess"] ["*"]])].

Section Cells.
Context `{World}.

(** The body of every [except ClientError as e] clause of the notebook, up to
    the text printed for the expected code. *)
Definition on_client_error (already : string) : py unit :=
  if_ (equals_str (item (item (attr (name "e") "response") "Error") "Code")
                  "EntityAlreadyExists")
      (print_ (lit (VStr already)))
      (print_ (modulo "Unexpected error: %s" (name "e"))).

Definition cell_client : cell := [
  import "json";
  import "boto3";
  from_import "botocore.exceptions" [NAME "ClientError"];
  "iam" ::= method (name "boto3") "client" [lit (VStr "iam")] []
].

Definition cell_assume_role_policy_doc : cell := [
  "assume_role_policy_doc" ::= lit assume_role_policy_doc
].

Definition cell_role_name : cell := [
  "iam_redshift_role_name" ::= lit (VStr "DSOAWS_Redshift")
].

Definition create_role : py value :=
  method (name "iam") "create_role" []
         [("RoleName", name "iam_redshift_role_name");
          ("AssumeRolePolicyDocument",
           method (name "json") "dumps" [name "assume_role_policy_doc"] []);
          ("Description", lit (VStr "DSOAWS Redshift Role"))].

Definition try_create_role : py unit :=
  try_except (set "iam_role_redshift" create_role)
             "ClientError" "e"
             (on_client_error "Role already exists").

Definition cell_create_role : cell := [ exec try_create_role ].

Definition cell_role_arn : cell := [
  "iam_role_redshift_arn" ::= item (item (name "iam_role_redshift") "Role") "Arn"
].

Definition cell_print_role_arn : cell := [
  exec (print_ (name "iam_role_redshift_arn"))
].

Definition cell_get_role : cell := [
  "role" ::= method (name "iam") "get_role" [] [("RoleName", lit (VStr "DSOAWS_Redshift"))];
  "role_arn" ::= item (item (name "role") "Role") "Arn";
  exec (print_ (name "role_arn"))
].

Definition cell_my_redshift_to_s3 : cell := [
  "my_redshift_to_s3" ::= lit my_redshift_to_s3
].

Definition cell_my_redshift_to_athena : cell := [
  "my_redshift_to_athena" ::= lit my_redshift_to_athena
].

Definition create_policy (policy_name document : string) : py value :=
  method (name "iam") "create_policy" []
         [("PolicyName", lit (VStr policy_name));
          ("PolicyDocument", method (name "json") "dumps" [name document] [])].

Definition try_create_policy_s3 : py unit :=
  try_except (set "policy_redshift_s3"
                  (create_policy "DSOAWS_RedshiftPolicyToS3" "my_redshift_to_s3"))
             "ClientError" "e"
             (on_client_error "Policy already exists").

Definition cell_create_policy_s3 : cell := [
  exec try_create_policy_s3;
  exec (print_ (name "policy_redshift_s3"))
].

Definition cell_policy_s3_arn : cell := [
  "policy_redshift_s3_arn" ::= item (item (name "policy_redshift_s3") "Policy") "Arn";
  exec (print_ (name "policy_redshift_s3_arn"))
].

Definition try_create_policy_athena : py unit :=
  try_except (set "policy_redshift_athena"
                  (create_policy "DSOAWS_RedshiftPolicyToAthena" "my_redshift_to_athena"))
             "ClientError" "e"
             (on_client_error "Policy already exists").

Definition cell_create_policy_athena : cell := [
  exec try_create_policy_athena;
  exec (print_ (name "policy_redshift_athena"))
].

Definition cell_policy_athena_arn : cell := [
  "policy_redshift_athena_arn" ::=
    item (item (name "policy_redshift_athena") "Policy") "Arn";
  exec (print_ (name "policy_redshift_athena_arn"))
].

Definition attach_role_policy (policy_arn : string) : py value :=
  method (name "iam") "attach_role_policy" []
         [("PolicyArn", name policy_arn);
          ("RoleName", name "iam_redshift_role_name")].

Definition try_attach_athena : py unit :=
  try_except (set "response" (attach_role_policy "policy_redshift_athena_arn"))
             "ClientError" "e"
             (on_client_error "Policy is already attached").

Definition cell_attach_athena : cell := [ exec try_attach_athena ].

Definition try_attach_s3 : py unit :=
  try_except (set "response" (attach_role_policy "policy_redshift_s3_arn"))
             "ClientError" "e"
             (on_client_error "Policy is already attached").

Definition cell_attach_s3 : cell := [ exec try_attach_s3 ].

Definition notebook : list cell :=
  [cell_client; cell_assume_role_policy_doc; cell_role_name; cell_create_role;
   cell_role_arn; cell_print_role_arn; cell_get_role; cell_my_redshift_to_s3;
   cell_my_redshift_to_athena; cell_create_policy_s3; cell_policy_s3_arn;
   cell_create_policy_athena; cell_policy_athena_arn; cell_attach_athena;
   cell_attach_s3].

(** The guarded statements of the notebook: the [try] statement, its body,
    the creation method the body calls and the message of the handler for the
    expected code. *)
Definition guarded : list (py unit * py unit * string * string) :=
  [(try_create_role, set "iam_role_redshift" create_role,
    "create_role", "Role already exists");
   (try_create_policy_s3,
    set "policy_redshift_s3"
        (create_policy "DSOAWS_RedshiftPolicyToS3" "my_redshift_to_s3"),
    "create_policy", "Policy already exists");
   (try_create_policy_athena,
    set "policy_redshift_athena"
        (create_policy "DSOAWS_RedshiftPolicyToAthena" "my_redshift_to_athena"),
    "create_policy", "Policy already exists");
   (try_attach_athena,
    set "response" (attach_role_policy "policy_redshift_athena_arn"),
    "attach_role_policy", "Policy is already attached");
   (try_attach_s3,
    set "response" (attach_role_policy "policy_redshift_s3_arn"),
    "attach_role_policy", "Policy is already attached")].

End Cells.
End IAM_Redshift.

(** ** The workflow DAG notebook (unnamed/part_000) *)

Module Airflow_DAG.
Section Cells.
Context `{World}.

Definition cell_dag : cell := [
  import "airflow";
  from_import "airflow" [NAME "DAG"];
  "default_args" ::= dict [("owner", lit (VStr "airflow"));
                           ("provide_context", lit (VBool true))];
  "dag" ::= apply (name "DAG") [lit (VStr "bert_reviews")]
                  [("default_args", name "default_args");
                   ("schedule_interval", lit (VStr "@once"))]
].

Definition cell_init : cell := [
  "init" ::= apply (name "DummyOperator") []
                   [("task_id", lit (VStr "start")); ("dag", name "dag")]
].

Definition make_process_op : py unit :=
  set "process_op"
      (apply (name "SageMakerProcessingOperator") []
             [("task_id", lit (VStr "process"));
              ("config", name "process_config");
              ("wait_for_completion", lit (VBool true));
              ("dag", name "dag")]).

Definition cell_process : cell := [
  from_import "airflow.contrib.operators.sagemaker_processing_operator"
              [NAME "SageMakerProcessingOperator"];
  from_import "sagemaker.workflow.airflow" [NAME "processing_config"];
  "process_config" ::= apply (name "processing_config") []
                             [("estimator", name "estimator");
                              ("inputs", name "input_data_s3_uri");
                              ("outputs", name "output_data_s3_uri")];
  exec make_process_op
].

Definition cell_process_upstream : cell := [
  exec (expr (method (name "process_op") "set_upstream" [name "init"] []))
].

Definition hyperparameters : list (string * py value) :=
  [("epochs", name "epochs");
   ("learning_rate", name "learning_rate");
   ("epsilon", name "epsilon");
   ("train_batch_size", name "train_batch_size");
   ("validation_batch_size", name "validation_batch_size");
   ("test_batch_size", name "test_batch_size");
   ("train_steps_per_epoch", name "train_steps_per_epoch");
   ("validation_steps", name "validation_steps");
   ("test_steps", name "test_steps");
   ("use_xla", name "use_xla");
   ("use_amp", name "use_amp");
   ("max_seq_length", name "max_seq_length");
   ("freeze_bert_layer", name "freeze_bert_layer");
   ("enable_sagemaker_debugger", name "enable_sagemaker_debugger");
   ("enable_checkpointing", name "enable_checkpointing");
   ("enable_tensorboard", name "enable_tensorboard");
   ("run_validation", name "run_validation");
   ("run_test", name "run_test");
   ("run_sample_predictions", name "run_sample_predictions")].

Definition cell_estimator : cell := [
  from_import "sagemaker.tensorflow" [NAME "TensorFlow"];
  "estimator" ::=
    apply (name "TensorFlow") []
          [("entry_point", lit (VStr "tf_bert_reviews.py"));
           ("source_dir", lit (VStr "src"));
           ("role", name "role");
           ("instance_count", name "train_instance_count");
           ("instance_type", name "train_instance_type");
           ("volume_size", name "train_volume_size");
           ("use_spot_instances", lit (VBool true));
           ("max_wait", lit (VInt 7200));
           ("checkpoint_s3_uri", name "checkpoint_s3_uri");
           ("py_version", lit (VStr "py3"));
           ("framework_version", lit (VStr "2.1.0"));
           ("hyperparameters", dict hyperparameters);
           ("input_mode", name "input_mode");
           ("metric_definitions", name "metrics_definitions");
           ("rules", name "rules");
           ("debugger_hook_config", name "hook_config");
           ("max_run", lit (VInt 7200))]
].

Definition make_train_op : py unit :=
  set "train_op"
      (apply (name "SageMakerTrainingOperator") []
             [("task_id", lit (VStr "train"));
              ("config", name "train_config");
              ("wait_for_completion", lit (VBool true));
              ("dag", name "dag")]).

Definition cell_train : cell := [
  from_import "airflow.contrib.operators.sagemaker_training_operator"
              [NAME "SageMakerTrainingOperator"];
  from_import "sagemaker.workflow.airflow" [NAME "training_config"];
  "train_config" ::= apply (name "training_config") []
                           [("estimator", name "estimator");
                            ("inputs", name "input_data_s3_uri")];
  exec make_train_op
].

Definition cell_train_upstream : cell := [
  exec (expr (method (name "train_op") "set_upstream" [name "process_op"] []))
].

Definition make_model_op : py unit :=
  set "model_op"
      (apply (name "SageMakerModelOperator") []
             [("task_id", lit (VStr "model"));
              ("config", name "model_config");
              ("wait_for_completion", lit (VBool true));
              ("dag", name "dag")]).

Definition cell_model : cell := [
  from_import "airflow.contrib.operators.sagemaker_model_operator"
              [NAME "SageMakerModelOperator"];
  from_import "sagemaker.workflow.airflow" [NAME "model_config"];
  exec make_model_op
].

Definition cell_model_upstream : cell := [
  exec (expr (method (name "model_op") "set_upstream" [name "train_op"] []))
].

Definition make_deploy_op : py unit :=
  set "deploy_op"
      (apply (name "SageMakerEndpointOperator") []
             [("task_id", lit (VStr "deploy"));
              ("config", name "endpoint_config");
              ("wait_for_completion", lit (VBool true));
              ("dag", name "dag")]).

(** The second import reads
    [from sagemaker.workflow.airflow import endpoint_config, # deploy_config_from_estimator]:
    the comment is dropped and the line ends in a comma. *)
Definition cell_deploy : cell := [
  from_import "airflow.contrib.operators.sagemaker_endpoint_operator"
              [NAME "SageMakerEndpointOperator"];
  from_import "sagemaker.workflow.airflow" [NAME "endpoint_config"; COMMA];
  exec make_deploy_op
].

Definition cell_deploy_upstream : cell := [
  exec (expr (method (name "deploy_op") "set_upstream" [name "model_op"] []))
].

Definition cell_dependencies : cell := [
  exec (expr (method (name "init") "set_downstream" [name "process_op"] []));
  exec (expr (method (name "processing_op") "set_downstream" [name "train_op"] []));
  exec (expr (method (name "train_op") "set_downstream" [name "model_op"] []));
  exec (expr (method (name "model_op") "set_downstream" [name "deploy_op"] []))
].

Definition notebook : list cell :=
  [cell_dag; cell_init; cell_process; cell_process_upstream; cell_estimator;
   cell_train; cell_train_upstream; cell_model; cell_model_upstream;
   cell_deploy; cell_deploy_upstream; cell_dependencies].

(** The four operators that wrap a SageMaker job: task_id, operator class and
    the statement that constructs the operator. *)
Definition sagemaker_operators : list (string * string * py unit) :=
  [("process", "SageMakerProcessingOperator", make_process_op);
   ("train", "SageMakerTrainingOperator", make_train_op);
   ("model", "SageMakerModelOperator", make_model_op);
   ("deploy", "SageMakerEndpointOperator", make_deploy_op)].

End Cells.

(** The chain start -> process -> train -> model -> deploy. *)
Definition chain : gset (string * string) :=
  {[ ("start", "process"); ("process", "train"); ("train", "model");
     ("model", "deploy") ]}.

Definition upstream_of (a : airflow) (t : string) : gset string :=
  set_map fst (filter (λ e, e.2 = t) (edges a)).

End Airflow_DAG.

(** ** A world that answers from a script

    The answers are given in advance, one per request, whatever the request
    is; when the script is exhausted every request returns [None]. *)

Definition scripted : World :=
  {| wstate := list outcome;
     serve := λ _ script, match script with
                          | o :: script' => (o, script')
                          | [] => (Returned VNone, [])
                          end;
     repr := λ _, "<object>";
     json_dumps := λ _, "<json>" |}.

Definition fresh (script : list outcome) : @kernel scripted :=
  @fresh_kernel scripted script.

Definition rejected (code operation : string) : outcome :=
  Rejected {| err_code := code; err_message := "rejected"; err_operation := operation |}.

Definition access_denied : client_error :=
  {| err_code := "AccessDenied"; err_message := "rejected"; err_operation := "CreateRole" |}.

(** Scripts for the bucket notebook: the seven answers that lead to the S3
    client, then the answers to the requests on the bucket. *)
Definition to_s3_client : list outcome :=
  [Returned (VObj "boto3.session"); Returned (VObj "session");
   Returned (VStr "us-east-1"); Returned (VObj "sts");
   Returned (VDict [("Account", VStr "123456789012")]);
   Returned (VObj "session"); Returned (VObj "s3")].

Definition bucket_created : list outcome :=
  to_s3_client ++ [Returned (VDict []); Returned (VDict []); Returned (VDict [])].

Definition bucket_missing : list outcome :=
  to_s3_client ++ [Returned (VDict []); Returned (VDict []); rejected "404" "HeadBucket"].

Definition bucket_owned : list outcome :=
  to_s3_client ++ [rejected "BucketAlreadyOwnedByYou" "CreateBucket"].

(** Scripts for the IAM notebook: the client, then the answers to the
    creation requests. *)
Definition role_denied : list outcome :=
  [Returned (VObj "iam"); Rejected access_denied].

Definition role_exists : list outcome :=
  [Returned (VObj "iam"); rejected "EntityAlreadyExists" "CreateRole";
   Returned (VDict [("Role", VDict [("Arn", VStr "arn:aws:iam::123456789012:role/DSOAWS_Redshift")])]);
   rejected "EntityAlreadyExists" "CreatePolicy";
   rejected "EntityAlreadyExists" "CreatePolicy"].

(** The kernel in which the [n]-th cell of the IAM notebook is about to run. *)
Definition iam_before (n : nat) (script : list outcome) : @kernel scripted :=
  (run_cells (take n IAM_Redshift.notebook) (fresh script)).2.

(** The arguments the notebook gives its DAG. *)
Definition bert_reviews_arguments : list (string * value) :=
  [("default_args", VDict [("owner", VStr "airflow"); ("provide_context", VBool true)]);
   ("schedule_interval", VStr "@once")].

(** A kernel in which the four operators can be constructed: their classes
    are imported, their configurations are there, and the DAG has a start
    date. *)
Definition ready_for_operators : @kernel scripted :=
  @Build_kernel scripted
    (list_to_map
       [("SageMakerProcessingOperator",
         VMember "airflow.contrib.operators.sagemaker_processing_operator"
                 "SageMakerProcessingOperator");
        ("SageMakerTrainingOperator",
         VMember "airflow.contrib.operators.sagemaker_training_operator"
                 "SageMakerTrainingOperator");
        ("SageMakerModelOperator",
         VMember "airflow.contrib.operators.sagemaker_model_operator"
                 "SageMakerModelOperator");
        ("SageMakerEndpointOperator",
         VMember "airflow.contrib.operators.sagemaker_endpoint_operator"
                 "SageMakerEndpointOperator");
        ("process_config", VDict []); ("train_config", VDict []);
        ("model_config", VDict []); ("endpoint_config", VDict []);
        ("dag", VDag "bert_reviews"
                     (("start_date", VStr "2021-01-01") :: bert_reviews_arguments))])
    [] [] no_airflow ∅ [].

(** ** 02_usecases/sagemaker_recommendations/wip/04_Featurization.ipynb

    The notebook configures Keras preprocessing layers.  What a layer has
    learned ([adapt]) or holds as weights is a parameter; numbers are exact
    rationals, and [None] stands for the NaN of a division 0/0. *)

Module Featurization.

Definition number : Type := option Qc.

Definition divide (s : Qc) (n : nat) : number :=
  match n with
  | O => None
  | S _ => Some (s / Q2Qc (inject_Z (Z.of_nat n)))%Qc
  end.

Definition zeros (dim : nat) : list Qc := replicate dim 0%Qc.

Definition vadd (u v : list Qc) : list Qc := zip_with Qcplus u v.

Definition vsum (dim : nat) (vs : list (list Qc)) : list Qc :=
  foldr vadd (zeros dim) vs.

(** The mean of a list of vectors, componentwise. *)
Definition mean (dim : nat) (vs : list (list Qc)) : list number :=
  map (λ s, divide s (length vs)) (vsum dim vs).

Fixpoint index_of (s : string) (l : list string) : option nat :=
  match l with
  | [] => None
  | x :: l' => if String.eqb s x then Some 0%nat else S <$> index_of s l'
  end.

Inductive layer :=
| TextVectorization (max_tokens : option nat)
| Embedding (input_dim output_dim : nat) (mask_zero : bool)
| GlobalAveragePooling1D.

Inductive tensor :=
| TStrings (batch : list string)
| TIds (rows : list (list nat))
| TSeq (dim : nat) (rows : list (list (list Qc))) (mask : option (list (list bool)))
| TVec (rows : list (list number)).

Section Layers.

(** The 64-bit fingerprint the framework hashes strings with. *)
Variable fingerprint : string → N.
(** Standardisation (lower case, punctuation stripped) and whitespace split. *)
Variable split : string → list string.
(** The tokens [adapt] has collected, most frequent first. *)
Variable title_vocabulary : list string.
Variable word_vocabulary : list string.
(** An embedding table: row, column. *)
Variable weights : nat → nat → Qc.

(** *** StringLookup(), with the defaults of its constructor *)

Definition mask_token : string := EmptyString.
Definition oov_token : string := "[UNK]".
Definition num_oov_indices : nat := 1.

Definition get_vocabulary (adapted : list string) : list string :=
  mask_token :: oov_token :: adapted.

Definition vocab_size (adapted : list string) : nat :=
  length (get_vocabulary adapted).

Definition string_lookup (adapted : list string) (s : string) : nat :=
  if String.eqb s mask_token then 0
  else match index_of s adapted with
       | Some i => 1 + num_oov_indices + i
       | None => 1 + N.to_nat (fingerprint s mod N.of_nat num_oov_indices)
       end.

Definition movie_title_lookup : string → nat := string_lookup title_vocabulary.

(** *** Hashing(num_bins=num_hashing_bins) *)

Definition num_hashing_bins : N := 200000.

Definition hashing (num_bins : N) (s : string) : N := (fingerprint s mod num_bins)%N.

Definition movie_title_hashing : string → N := hashing num_hashing_bins.

(** *** TextVectorization, Embedding, GlobalAveragePooling1D *)

(** [max_tokens] bounds the vocabulary, the padding and OOV entries included. *)
Definition kept (max_tokens : option nat) (adapted : list string) : list string :=
  match max_tokens with
  | Some n => take (n - 2) adapted
  | None => adapted
  end.

Definition word_id (max_tokens : option nat) (w : string) : nat :=
  match index_of w (kept max_tokens word_vocabulary) with
  | Some i => i + 2
  | None => 1
  end.

Definition word_ids (max_tokens : option nat) (title : string) : list nat :=
  map (word_id max_tokens) (split title).

(** Rows of a batch are padded with 0 to the length of the longest. *)
Definition longest (rows : list (list nat)) : nat :=
  foldr (λ r, Nat.max (length r)) 0 rows.

Definition pad (n : nat) (row : list nat) : list nat :=
  row ++ replicate (n - length row) 0.

Definition pad_rows (rows : list (list nat)) : list (list nat) :=
  map (pad (longest rows)) rows.

Definition embedding (dim : nat) (id : nat) : list Qc :=
  map (weights id) (seq 0 dim).

Definition masked (keep : bool) (v : list Qc) : list Qc :=
  if keep then v else map (λ _, 0%Qc) v.

(** Averaging over the steps: with a mask, masked steps count for nothing in
    the sum and in the divisor. *)
Definition pool (dim : nat) (row : list (list Qc)) (mask : option (list bool))
  : list number :=
  match mask with
  | None => map (λ s, divide s (length row)) (vsum dim row)
  | Some m =>
      map (λ s, divide s (length (filter (λ b, b = true) m)))
          (vsum dim (zip_with masked m row))
  end.

Definition run_layer (l : layer) (t : tensor) : option tensor :=
  match l, t with
  | TextVectorization max_tokens, TStrings batch =>
      Some (TIds (pad_rows (map (word_ids max_tokens) batch)))
  | Embedding input_dim output_dim mask_zero, TIds rows =>
      if forallb (forallb (λ id, Nat.ltb id input_dim)) rows then
        Some (TSeq output_dim (map (map (embedding output_dim)) rows)
                   (if mask_zero
                    then Some (map (map (λ id, negb (Nat.eqb id 0))) rows)
                    else None))
      else None
  | GlobalAveragePooling1D, TSeq dim rows mask =>
      Some (TVec (match mask with
                  | Some m => zip_with (λ r mr, pool dim r (Some mr)) rows m
                  | None => map (λ r, pool dim r None) rows
                  end))
  | _, _ => None
  end.

(** tf.keras.Sequential *)
Fixpoint sequential (layers : list layer) (t : tensor) : option tensor :=
  match layers with
  | [] => Some t
  | l :: layers' =>
      match run_layer l t with
      | Some t' => sequential layers' t'
      | None => None
      end
  end.

(** MovieModel.title_text_embedding *)
Definition max_tokens : nat := 10000.

Definition title_text_embedding : list layer :=
  [TextVectorization (Some max_tokens);
   Embedding max_tokens 32 true;
   GlobalAveragePooling1D].

End Layers.
End Featurization.

(** A kernel in which the five operator names are bound to their tasks, as
    they would be had every constructor cell run. *)
Definition operators_bound : @kernel scripted :=
  @Build_kernel scripted
    (list_to_map [("init", VTask "start"); ("process_op", VTask "process");
                  ("train_op", VTask "train"); ("model_op", VTask "model");
                  ("deploy_op", VTask "deploy")])
    [] [] no_airflow ∅ [].

(** A small instance of the preprocessing layers: three words, a table whose
    row [i] is the constant vector [i], titles split at spaces. *)
Definition toy_words : list string := ["the"; "star"; "wars"].

Definition toy_weights (row column : nat) : Qc := Q2Qc (inject_Z (Z.of_nat row)).

Definition toy_split (title : string) : list string := String.words title.

Definition toy_fingerprint (s : string) : N := N.of_nat (String.length s).

(** ** Vocabulary of the statements proved below *)

Section Vocabulary.
Context `{World}.

(** [wp c Φ k]: running [c] in [k] ends in a result and a kernel that satisfy
    [Φ]. *)
Definition wp {A} (c : py A) (Φ : result A → kernel → Prop) (k : kernel) : Prop :=
  Φ (c k).1 (c k).2.

(** The same for the cells of a notebook run one after the other. *)
Definition wps (cs : list cell) (Ψ : list (result unit) → kernel → Prop)
    (k : kernel) : Prop :=
  Ψ (run_cells cs k).1 (run_cells cs k).2.

(** The kernel after a request has been answered. *)
Definition answered (k : kernel) (r : request) (o : outcome) (w : wstate) : kernel :=
  {| ns := ns k; out := out k; log := log k ++ [Requested r o]; flow := flow k;
     stored := stored k; world := w |}.

(** The kernel after a line has been printed, a variable stored by [%store],
    a shell command run. *)
Definition printed (k : kernel) (line : string) : kernel :=
  {| ns := ns k; out := out k ++ [line]; log := log k; flow := flow k;
     stored := stored k; world := world k |}.

Definition persisted (k : kernel) (x : string) (v : value) : kernel :=
  {| ns := ns k; out := out k; log := log k; flow := flow k;
     stored := <[x := v]> (stored k); world := world k |}.

Definition shelled (k : kernel) (command : string) : kernel :=
  {| ns := ns k; out := out k; log := log k ++ [Shell command];
     flow := flow k; stored := stored k; world := world k |}.

(** Method names that [invoke] implements itself for some receiver. *)
Definition builtin_method (m : string) : bool :=
  existsb (String.eqb m) ["set_upstream"; "set_downstream"; "format"; "get"; "dumps"].

(** The names a kernel has after the first cell of the IAM notebook. *)
Definition iam_imports (k : kernel) : Prop :=
  ns k !! "json" = Some (VModule "json")
  ∧ ns k !! "ClientError" = Some (VMember "botocore.exceptions" "ClientError").

End Vocabulary.

(** A request on a bucket: the method, the [Bucket] argument and whether the
    service answered it. *)
Definition bucket_op (ev : event) : option (string * value * bool) :=
  match ev with
  | Requested (Invoke _ m _ kwargs) o =>
      match assoc "Bucket" kwargs with
      | Some b => Some (m, b, match o with Returned _ => true | Rejected _ => false end)
      | None => None
      end
  | _ => None
  end.

Definition bucket_ops (l : list event) : list (string * value * bool) :=
  omap bucket_op l.

Definition all_blocked : value :=
  VDict [("BlockPublicAcls", VBool true); ("IgnorePublicAcls", VBool true);
         ("BlockPublicPolicy", VBool true); ("RestrictPublicBuckets", VBool true)].

(** ** 04_Featurization.ipynb, continued: the timestamp buckets and the
    models assembled from the layers

    Timestamps are 64-bit integers far from the bounds.  The boundaries are
    computed as exact rationals; the discretization layer holds them, and
    compares its inputs with them, as float32 numbers: [float32] is the
    rounding of a number to that precision, a parameter of which the proofs
    use that it keeps the order. *)

Module Featurization_Models.
Import Featurization.

(** Dataset.reduce(initial_state, reduce_func) *)
Definition reduce {A S} (initial_state : S) (reduce_func : S → A → S)
    (dataset : list A) : S :=
  fold_left reduce_func dataset initial_state.

(** np.linspace(start, stop, num): [num] samples, the end point included, at
    a step of (stop - start) / (num - 1). *)
Definition linspace (start stop : Q) (num : nat) : list Q :=
  let step := ((stop - start) / inject_Z (Z.of_nat (num - 1)))%Q in
  map (λ i, (inject_Z (Z.of_nat i) * step + start)%Q) (seq 0 num).

(** The bucket of [x] among sorted boundaries: the position of the first
    boundary above [x], so that a bucket includes its left boundary and
    excludes its right one. *)
Fixpoint bucketize (float32 : Q → Q) (boundaries : list Q) (x : Q) : nat :=
  match boundaries with
  | [] => 0
  | b :: bs =>
      if Qle_bool (float32 b) (float32 x) then S (bucketize float32 bs x) else 0
  end.



(** Embedding(input_dim, output_dim) on a batch of indices: an index outside
    the table is an error. *)
Definition embedding_layer (weights : nat → nat → Qc) (input_dim output_dim : nat)
    (ids : list nat) : option (list (list Qc)) :=
  if forallb (λ id, Nat.ltb id input_dim) ids
  then Some (map (embedding weights output_dim) ids)
  else None.

(** tf.concat(values, axis=1) on matrices: rows are joined one by one, and
    the matrices must have as many rows as one another. *)
Definition concat (values : list (list (list number))) : option (list (list number)) :=
  match values with
  | [] => None
  | v :: vs =>
      if forallb (λ u, Nat.eqb (length u) (length v)) vs
      then Some (foldl (zip_with app) v vs)
      else None
  end.

Section Models.

Variable fingerprint : string → N.
Variable split : string → list string.
(** What [adapt] has collected from the titles, the user ids and the words
    of the titles. *)
Variable title_vocabulary user_vocabulary word_vocabulary : list string.
(** The "timestamp" column of the ratings. *)
Variable timestamps : list Z.
Variable float32 : Q → Q.

(** *** Movie titles and user ids *)

Definition movie_title_embedding (weights : nat → nat → Qc)
  : list nat → option (list (list Qc)) :=
  embedding_layer weights (vocab_size title_vocabulary) 32.

Definition movie_title_model (weights : nat → nat → Qc) (titles : list string)
  : option (list (list Qc)) :=
  movie_title_embedding weights
    (map (movie_title_lookup fingerprint title_vocabulary) titles).

Definition user_id_lookup : string → nat := string_lookup fingerprint user_vocabulary.

Definition user_id_embedding (weights : nat → nat → Qc)
  : list nat → option (list (list Qc)) :=
  embedding_layer weights (N.to_nat num_hashing_bins) 32.

Definition user_id_model (weights : nat → nat → Qc) (user_ids : list string)
  : option (list (list Qc)) :=
  user_id_embedding weights (map user_id_lookup user_ids).

(** *** Timestamps *)

Definition max_timestamp : Z := reduce 0%Z Z.max timestamps.

Definition min_timestamp : Z := reduce 1000000000%Z Z.min timestamps.

Definition timestamp_buckets : list Q :=
  linspace (inject_Z min_timestamp) (inject_Z max_timestamp) 1000.


(** *** UserModel: [self.user_embedding], [self.timestamp_embedding] *)

Definition user_embedding (weights : nat → nat → Qc) (user_ids : list string)
  : option (list (list Qc)) :=
  embedding_layer weights (vocab_size user_vocabulary) 32
    (map user_id_lookup user_ids).


(** *** MovieModel: [self.title_embedding], [call] *)

Definition title_embedding (weights : nat → nat → Qc) (titles : list string)
  : option (list (list Qc)) :=
  embedding_layer weights (vocab_size title_vocabulary) 32
    (map (movie_title_lookup fingerprint title_vocabulary) titles).

Definition MovieModel_call (title_weights text_weights : nat → nat → Qc)
    (movie_title : list string) : option (list (list number)) :=
  match title_embedding title_weights movie_title,
        sequential split word_vocabulary text_weights title_text_embedding
                   (TStrings movie_title) with
  | Some titles, Some (TVec texts) => concat [map (map Some) titles; texts]
  | _, _ => None
  end.

End Models.
End Featurization_Models.

(** Three ratings' timestamps, and a vocabulary of two user ids. *)
Definition toy_timestamps : list Z := [874724710; 893286638; 881250949]%Z.

Definition toy_users : list string := ["138"; "92"].

(** Rounding down to a multiple of 64, the spacing of the float32 numbers
    between 2^29 and 2^30, where these timestamps lie. *)
Definition toy_float32 (x : Q) : Q := inject_Z (64 * (Qfloor x / 64))%Z.

(** ** More vocabulary *)

(** The requests of a log, in the order they were sent. *)
Definition requests (l : list event) : list request :=
  omap (λ ev, match ev with Requested r _ => Some r | Shell _ => None end) l.

(** [v[a][b]] for a dictionary of dictionaries. *)
Definition nested (v : value) (a b : string) : option value :=
  match v with
  | VDict kvs =>
      match assoc a kvs with
      | Some (VDict kvs') => assoc b kvs'
      | _ => None
      end
  | _ => None
  end.

(** The IAM notebook against a service that answers every request: the role,
    the role again, the two policies, the two attachments. *)
Definition all_created : list outcome :=
  [Returned (VObj "iam");
   Returned (VDict [("Role", VDict [("Arn", VStr "arn:aws:iam::123456789012:role/DSOAWS_Redshift")])]);
   Returned (VDict [("Role", VDict [("Arn", VStr "arn:aws:iam::123456789012:role/DSOAWS_Redshift")])]);
   Returned (VDict [("Policy", VDict [("Arn", VStr "arn:aws:iam::123456789012:policy/DSOAWS_RedshiftPolicyToS3")])]);
   Returned (VDict [("Policy", VDict [("Arn", VStr "arn:aws:iam::123456789012:policy/DSOAWS_RedshiftPolicyToAthena")])]);
   Returned (VDict []); Returned (VDict [])].

(** * Reasoning about cells

    One rule per construct of the model; a proof about a cell applies them in
    the order of the cell's statements. *)

Section Logic.
Context `{World}.

Lemma wp_run {A} (c : py A) Φ k r k' : wp c Φ k → c k = (r, k') → Φ r k'.
Proof. unfold wp. intros HΦ Hrun. by rewrite Hrun in HΦ. Qed.

Lemma wp_bind {A B} (c : py A) (f : A → py B) Φ k :
  wp c (λ r k', match r with
                | Done a => wp (f a) Φ k'
                | Raise e => Φ (Raise e) k'
                end) k →
  wp (c ≫= f) Φ k.
Proof.
  unfold wp, mbind, py_bind, bind_py. by destruct (c k) as [[a|e] k1].
Qed.

Lemma wp_ret {A} (a : A) Φ k : Φ (Done a) k → wp (mret a) Φ k.
Proof. done. Qed.

Lemma wp_raise {A} e (Φ : result A → kernel → Prop) k :
  Φ (Raise e) k → wp (raise e) Φ k.
Proof. done. Qed.

Lemma wp_load x Φ k :
  match ns k !! x with
  | Some v => Φ (Done v) k
  | None => Φ (Raise (NameError x)) k
  end →
  wp (load x) Φ k.
Proof. unfold wp, load. by destruct (ns k !! x). Qed.

Lemma wp_assign x v Φ k :
  Φ (Done tt) (set_ns (insert x v) k) → wp (assign x v) Φ k.
Proof. done. Qed.

Lemma wp_print v Φ k :
  Φ (Done tt) (printed k (str v)) → wp (print v) Φ k.
Proof. done. Qed.


Lemma wp_ask r Φ k :
  (∀ v w, serve r (world k) = (Returned v, w) →
          Φ (Done v) (answered k r (Returned v) w)) →
  (∀ e w, serve r (world k) = (Rejected e, w) →
          Φ (Raise (ClientError e)) (answered k r (Rejected e) w)) →
  wp (ask r) Φ k.
Proof.
  intros Hv He. unfold wp, ask.
  destruct (serve r (world k)) as [[v|e] w] eqn:Hs; [by apply Hv | by apply He].
Qed.



(** Looking up a method that no Python object of the model has: the receiver
    is external, or the lookup fails. *)
Lemma wp_has_method {A} o m (c : py A) Φ k :
  builtin_method m = false →
  (is_foreign o = true → wp c Φ k) →
  Φ (Raise (AttributeError m)) k →
  wp (if has_method o m then c else raise (AttributeError m)) Φ k.
Proof.
  unfold builtin_method. cbn [existsb]. intros Hm Hc Hattr.
  repeat (apply orb_false_elim in Hm as [? Hm]).
  destruct o; cbn [has_method];
    repeat match goal with Heq : String.eqb _ _ = false |- _ => rewrite Heq; clear Heq end;
    auto.
Qed.

Lemma wp_has_get {A} o (c : py A) Φ k :
  (∀ kvs, o = VDict kvs → wp c Φ k) →
  (is_foreign o = true → wp c Φ k) →
  Φ (Raise (AttributeError "get")) k →
  wp (if has_method o "get" then c else raise (AttributeError "get")) Φ k.
Proof.
  intros Hdict Hc Hattr.
  destruct o; cbn [has_method String.eqb Ascii.eqb Bool.eqb orb]; eauto.
Qed.

Lemma has_method_foreign o m : is_foreign o = true → has_method o m = true.
Proof. by destruct o. Qed.

(** A call on an external receiver is a request, [json.dumps] apart. *)
Lemma wp_invoke_foreign o m args kwargs Φ k :
  is_foreign o = true →
  String.eqb m "dumps" = false →
  wp (ask (Invoke o m args kwargs)) Φ k →
  wp (invoke o m args kwargs) Φ k.
Proof.
  intros Ho Hm Hask.
  destruct o; try discriminate Ho; cbn [invoke]; [|done..].
  by rewrite Hm, andb_false_r.
Qed.

Lemma wp_getattr o a Φ k :
  (is_foreign o = true → wp (ask (GetAttr o a)) Φ k) →
  (∀ e, o = VExc e →
        wp (if String.eqb a "response" then mret (error_response e)
            else raise (AttributeError a)) Φ k) →
  Φ (Raise (AttributeError a)) k →
  wp (getattr o a) Φ k.
Proof. intros Hask Hexc Hattr. destruct o; cbn [getattr is_foreign]; eauto. Qed.

Lemma wp_add a b Φ k :
  (∀ s t, a = VStr s → b = VStr t → Φ (Done (VStr (s +:+ t))) k) →
  (∀ m n, a = VInt m → b = VInt n → Φ (Done (VInt (m + n))) k) →
  Φ (Raise (TypeError "unsupported operand type(s) for +")) k →
  wp (add a b) Φ k.
Proof. intros Hs Hi Ht. destruct a, b; cbn [add]; solve [apply Ht | by apply Hs | by apply Hi]. Qed.

Lemma wp_subscript v key Φ k :
  (∀ kvs, v = VDict kvs →
          match assoc key kvs with
          | Some x => Φ (Done x) k
          | None => Φ (Raise (KeyError key)) k
          end) →
  Φ (Raise (TypeError "object is not subscriptable")) k →
  wp (subscript v key) Φ k.
Proof.
  intros Hd Ht. destruct v; cbn [subscript]; eauto.
  specialize (Hd kvs eq_refl). by destruct (assoc key kvs).
Qed.

Lemma wp_format template args Φ k :
  match fill "{" "}" template (map str args) with
  | Some (s, _) => Φ (Done (VStr s)) k
  | None => Φ (Raise (IndexError "Replacement index out of range")) k
  end →
  wp (format template args) Φ k.
Proof. unfold format. by destruct (fill _ _ _ _) as [[s rest]|]. Qed.

Lemma wp_percent template arg Φ k :
  match fill "%" "s" template [str arg] with
  | Some (s, []) => Φ (Done (VStr s)) k
  | Some (_, _ :: _) => Φ (Raise (TypeError "not all arguments converted")) k
  | None => Φ (Raise (TypeError "not enough arguments for format string")) k
  end →
  wp (percent template arg) Φ k.
Proof. unfold percent. by destruct (fill _ _ _ _) as [[s [|x rest]]|]. Qed.

Lemma wp_try body cls target handler Φ k :
  wp body (λ r k1,
    match r with
    | Done a => Φ (Done a) k1
    | Raise ex =>
        match ns k1 !! cls with
        | None => Φ (Raise (NameError cls)) k1
        | Some c =>
            if is_class c then
              match ex with
              | ClientError e =>
                  if is_ClientError_class c then
                    wp handler (λ r2 k2, Φ r2 (set_ns (delete target) k2))
                       (set_ns (insert target (VExc e)) k1)
                  else Φ (Raise ex) k1
              | _ => Φ (Raise ex) k1
              end
            else
              Φ (Raise (TypeError "catching classes that do not inherit from BaseException is not allowed"))
                k1
        end
    end) k →
  wp (try_except body cls target handler) Φ k.
Proof.
  unfold wp, try_except. destruct (body k) as [[a|ex] k1]; [done|]. cbn [fst snd].
  destruct (ns k1 !! cls) as [c|]; [|done].
  destruct (is_class c); [|done].
  destruct ex; try done.
  destruct (is_ClientError_class c); [|done].
  by destruct (handler _) as [r2 k2].
Qed.

Lemma wp_magic_store x Φ k :
  match ns k !! x with
  | Some v => Φ (Done tt) (persisted k x v)
  | None => Φ (Raise (UsageError ("Unknown variable '" +:+ x +:+ "'"))) k
  end →
  wp (magic_store x) Φ k.
Proof. unfold wp, magic_store. by destruct (ns k !! x). Qed.

Lemma wp_persist x v Φ k :
  Φ (Done tt) (persisted k x v) → wp (persist x v) Φ k.
Proof. done. Qed.

Lemma wp_shell command variable Φ k :
  Φ (Done tt)
    (shelled k (command +:+ match ns k !! variable with
                            | Some v => str v
                            | None => "$" +:+ variable
                            end)) →
  wp (shell command variable) Φ k.
Proof. done. Qed.

Lemma wp_new_dag args kwargs Φ k :
  match args with
  | VStr dag_id :: _ =>
      Φ (Done (VDag dag_id kwargs))
        (set_flow (λ a, {| dags := {[dag_id]} ∪ dags a; tasks := tasks a;
                           edges := edges a |}) k)
  | _ => Φ (Raise (TypeError "DAG() needs a dag_id")) k
  end →
  wp (new_dag args kwargs) Φ k.
Proof. unfold new_dag. by destruct args as [|[] args]. Qed.

Lemma wp_new_task cls kwargs Φ k :
  match assoc "task_id" kwargs, assoc "dag" kwargs with
  | Some (VStr task_id), Some (VDag _ dag_kwargs) =>
      if has_start_date dag_kwargs kwargs then
        Φ (Done (VTask task_id))
          (set_flow (λ a, {| dags := dags a;
                             tasks := <[task_id := {| task_operator := cls;
                                                      task_kwargs := kwargs |}]> (tasks a);
                             edges := edges a |}) k)
      else Φ (Raise (AirflowException "Task is missing the start_date parameter")) k
  | _, _ => Φ (Raise (TypeError "operator needs task_id and dag")) k
  end →
  wp (new_task cls kwargs) Φ k.
Proof.
  unfold new_task.
  destruct (assoc "task_id" kwargs) as [[]|]; try done.
  destruct (assoc "dag" kwargs) as [[]|]; try done.
  by destruct (has_start_date _ _).
Qed.

Lemma wp_add_edge up down Φ k :
  Φ (Done VNone)
    (set_flow (λ a, {| dags := dags a; tasks := tasks a;
                       edges := {[(up, down)]} ∪ edges a |}) k) →
  wp (add_edge up down) Φ k.
Proof. done. Qed.

Lemma wp_mono {A} (c : py A) (Φ Ψ : result A → kernel → Prop) k :
  wp c Φ k → (∀ r k', Φ r k' → Ψ r k') → wp c Ψ k.
Proof. unfold wp. auto. Qed.


Lemma wps_nil (Ψ : list (result unit) → kernel → Prop) k : Ψ [] k → wps [] Ψ k.
Proof. done. Qed.

Lemma wps_cons c cs (Ψ : list (result unit) → kernel → Prop) k :
  wp (run_cell c) (λ r k1, wps cs (λ rs kf, Ψ (r :: rs) kf) k1) k →
  wps (c :: cs) Ψ k.
Proof.
  unfold wp, wps. cbn [run_cells].
  destruct (run_cell c k) as [r k1]. cbn [fst snd].
  by destruct (run_cells cs k1) as [rs k2].
Qed.

Lemma wps_any cs (Ψ : list (result unit) → kernel → Prop) k :
  (∀ rs kf, Ψ rs kf) → wps cs Ψ k.
Proof. unfold wps. auto. Qed.

Lemma wps_run cs Ψ k rs kf : wps cs Ψ k → run_cells cs k = (rs, kf) → Ψ rs kf.
Proof. unfold wps. intros HΨ Hrun. by rewrite Hrun in HΨ. Qed.


Lemma run_cells_length cs k : length (run_cells cs k).1 = length cs.
Proof.
  revert k. induction cs as [|c cs IH]; intros k; [done|].
  cbn [run_cells]. destruct (run_cell c k) as [r k1].
  specialize (IH k1). destruct (run_cells cs k1) as [rs k2]. cbn in *. by f_equal.
Qed.

Lemma run_cells_app cs1 cs2 k :
  run_cells (cs1 ++ cs2) k =
    ((run_cells cs1 k).1 ++ (run_cells cs2 (run_cells cs1 k).2).1,
     (run_cells cs2 (run_cells cs1 k).2).2).
Proof.
  revert k. induction cs1 as [|c cs1 IH]; intros k.
  - cbn. by destruct (run_cells cs2 k).
  - cbn [app run_cells]. destruct (run_cell c k) as [r k1].
    rewrite IH. by destruct (run_cells cs1 k1) as [rs k2].
Qed.

(** A property of the kernel that every cell of a list maintains holds after
    the cells have run. *)
Lemma run_cells_invariant (I : kernel → Prop) cs k :
  Forall (λ c, ∀ k0, I k0 → wp (run_cell c) (λ _ k', I k') k0) cs →
  I k → I (run_cells cs k).2.
Proof.
  intros Hcs. revert k. induction Hcs as [|c cs Hc _ IH]; intros k Hk; [done|].
  cbn [run_cells]. specialize (Hc k Hk). unfold wp in Hc.
  destruct (run_cell c k) as [r k1]. specialize (IH k1 Hc).
  by destruct (run_cells cs k1) as [rs k2].
Qed.


Lemma run_cells_nth cs1 c cs2 k :
  (run_cells (cs1 ++ c :: cs2) k).1 !! length cs1
  = Some (run_cell c (run_cells cs1 k).2).1.
Proof.
  rewrite run_cells_app. cbn [fst].
  rewrite lookup_app_r by (rewrite run_cells_length; lia).
  rewrite run_cells_length, Nat.sub_diag. cbn [run_cells].
  destruct (run_cell c _) as [r k1]. by destruct (run_cells cs2 k1).
Qed.

End Logic.

(** ** Stepping through a cell *)

(** Lookups through the inserts and deletes a cell has done so far. *)
Ltac lookup :=
  repeat (rewrite lookup_insert_eq
          || (rewrite lookup_insert_ne by done)
          || rewrite lookup_delete_eq
          || (rewrite lookup_delete_ne by done)
          || rewrite lookup_empty).

(** Evaluate a [format] or [%] on its template. *)
Ltac fill_in :=
  lazymatch goal with
  | |- context [fill ?a ?b ?t ?l] =>
      let r := eval cbn [fill map str Ascii.eqb Bool.eqb andb] in (fill a b t l) in
      change (fill a b t l) with r
  end.

(** Read the fields of the kernel through the updates made to it. *)
Ltac wp_norm :=
  cbn [ns out log flow stored world set_ns set_flow answered printed persisted shelled
       dags tasks edges].

Ltac wp_norm_in Hs :=
  cbn [ns out log flow stored world set_ns set_flow answered printed persisted shelled
       dags tasks edges] in Hs.

(** A name looked up in the kernel the proof starts from: use what is known
    of it, or consider both cases. *)
Ltac known_name :=
  try lazymatch goal with
      | |- context [ns ?k !! ?x] =>
          is_var k;
          first [ match goal with Hx : ns k !! x = _ |- _ => rewrite Hx end
                | destruct (ns k !! x) eqn:? ]
      end.

Ltac wp_unfold :=
  lazymatch goal with
  | |- wp (set _ _) _ _ => unfold set
  | |- wp (expr _) _ _ => unfold expr
  | |- wp (print_ _) _ _ => unfold print_
  | |- wp (if_ _ _ _) _ _ => unfold if_
  | |- wp (name _) _ _ => unfold name
  | |- wp (lit _) _ _ => unfold lit
  | |- wp (dict _) _ _ => unfold dict
  | |- wp (apply _ _ _) _ _ => unfold apply
  | |- wp (method _ _ _ _) _ _ => unfold method
  | |- wp (attr _ _) _ _ => unfold attr
  | |- wp (item _ _) _ _ => unfold item
  | |- wp (plus _ _) _ _ => unfold plus
  | |- wp (modulo _ _) _ _ => unfold modulo
  | |- wp (equals_str _ _) _ _ => unfold equals_str
  | |- wp (eval_args _) _ _ => cbn [eval_args]
  | |- wp (eval_fields _) _ _ => cbn [eval_fields]
  | |- wp (bind_members _ _) _ _ => cbn [bind_members]
  end.

Ltac wp_step :=
  lazymatch goal with
  | |- wp (_ ≫= _) _ _ => apply wp_bind
  | |- wp (mret _) _ _ => apply wp_ret
  | |- wp (raise _) _ _ => apply wp_raise
  | |- wp (assign _ _) _ _ => apply wp_assign
  | |- wp (print _) _ _ => apply wp_print
  | |- wp (load _) _ _ => apply wp_load; wp_norm; lookup; known_name
  | |- wp (persist _ _) _ _ => apply wp_persist
  | |- wp (magic_store _) _ _ => apply wp_magic_store; wp_norm; lookup; known_name
  | |- wp (shell _ _) _ _ =>
      apply wp_shell; wp_norm; lookup; known_name
  | |- wp (try_except _ _ _ _) _ _ => apply wp_try
  | |- wp (ask _) _ _ =>
      apply wp_ask; intros;
      repeat match goal with
             | Hs : serve _ (world _) = _ |- _ => progress wp_norm_in Hs
             end
  | |- wp (getattr ?o _) _ _ =>
      first [ is_var o; apply wp_getattr; [intros | intros; simplify_eq | ]
            | cbn [getattr is_foreign String.eqb Ascii.eqb Bool.eqb] ]
  | |- wp (add _ _) _ _ => apply wp_add; [intros; simplify_eq | intros; simplify_eq | ]
  | |- wp (subscript ?v _) _ _ =>
      first [ is_var v; apply wp_subscript; [intros; simplify_eq | ]
            | cbn [subscript error_response assoc String.eqb Ascii.eqb Bool.eqb] ]
  | |- wp (if has_method ?o "get" then _ else _) _ _ =>
      first [ is_var o; rewrite (has_method_foreign o "get") by assumption
            | is_var o; apply wp_has_get; [intros; simplify_eq | intros | ]
            | cbn [has_method String.eqb Ascii.eqb Bool.eqb orb] ]
  | |- wp (if has_method ?o ?m then _ else _) _ _ =>
      first [ is_var o; rewrite (has_method_foreign o m) by assumption
            | is_var o; apply wp_has_method; [reflexivity | intros | ]
            | is_var o; destruct o; cbn [has_method String.eqb Ascii.eqb Bool.eqb orb]
            | cbn [has_method String.eqb Ascii.eqb Bool.eqb orb] ]
  | |- wp (invoke ?o _ _ _) _ _ =>
      first [ is_var o; apply wp_invoke_foreign; [assumption | reflexivity | ]
            | cbn [invoke String.eqb Ascii.eqb Bool.eqb andb] ]
  | |- wp (call ?f _ _) _ _ =>
      first [ is_var f; destruct f; cbn [call]
            | cbn [call String.eqb Ascii.eqb Bool.eqb andb];
              rewrite ?andb_false_r;
              cbn [is_operator_class operator_classes existsb
                   String.eqb Ascii.eqb Bool.eqb orb] ]
  | |- wp (new_dag _ _) _ _ => apply wp_new_dag
  | |- wp (new_task _ _) _ _ =>
      apply wp_new_task; cbn [assoc String.eqb Ascii.eqb Bool.eqb]
  | |- if has_start_date ?d ?t then _ else _ =>
      first [ is_var d; destruct (has_start_date d t) eqn:?
            | let r := eval vm_compute in (has_start_date d t) in
              change (has_start_date d t) with r; cbv iota ]
  | |- wp (add_edge _ _) _ _ => apply wp_add_edge
  | |- wp (set_upstream _ _) _ _ => cbn [set_upstream]
  | |- wp (set_downstream _ _) _ _ => cbn [set_downstream]
  | |- wp (dict_get _ _) _ _ => cbn [dict_get]
  | |- wp (format _ _) _ _ => apply wp_format; fill_in
  | |- wp (percent _ _) _ _ => apply wp_percent; fill_in
  | |- match _ !! _ with Some _ => _ | None => _ end =>
      wp_norm; lookup; known_name
  | |- if is_class _ then _ else _ => cbn [is_class]
  | |- if is_ClientError_class _ then _ else _ =>
      cbn [is_ClientError_class String.eqb Ascii.eqb Bool.eqb andb orb]
  | |- wp (if ?b then _ else _) _ _ => destruct b eqn:?
  | |- wp (match ?v with _ => _ end) _ _ => is_var v; destruct v
  | |- match ?v with _ => _ end =>
      lazymatch type of v with value => is_var v; destruct v end
  | |- _ => wp_unfold
  end.

(** [wp_walk fin]: step as far as the program goes; [fin] closes or
    simplifies what is left at each end. *)
Ltac wp_walk fin := repeat (wp_step; wp_norm); fin.

Lemma tail_cons {A} (x : A) l l' t : l = l' ++ t → x :: l = (x :: l') ++ t.
Proof. by intros ->. Qed.

(** [[e1; ...; en; a; b] = ?l ++ [?a; ?b]] *)
Ltac split_tail :=
  repeat lazymatch goal with
         | |- [_; _] = _ => exact (eq_refl ([] ++ [_; _]))
         | |- _ :: _ = _ => apply tail_cons
         end.


(** Cells of a notebook one after the other: the rest of the run is kept
    under a name while a cell is stepped through. *)
Ltac wp_name_post :=
  lazymatch goal with
  | |- wp _ ?P _ => let Φ := fresh "Φ" in set (Φ := P)
  end.

Ltac wp_cell :=
  lazymatch goal with |- wps (_ :: _) _ _ => apply wps_cons end; unfold run_cell;
  lazymatch goal with |- context [compile (?c _)] => unfold c end;
  cbn [compile from_import import_from_targets import_names import exec];
  wp_name_post.

Ltac wp_post :=
  lazymatch goal with
  | |- ?Φ _ _ => is_var Φ; subst Φ; cbv beta
  end.

Ltac wp_done :=
  lazymatch goal with |- wps [] _ _ => apply wps_nil end.

Ltac wp_cells := repeat (first [ wp_done | wp_cell | wp_post ]; wp_walk idtac).


(** * The model on small inputs *)

Example format_fills_in_order :
  fill "{" "}" "s3://{}/dags/{}" ["bucket"; "pipeline"]
  = Some ("s3://bucket/dags/pipeline", []).
Proof. reflexivity. Qed.

Example format_runs_out : fill "{" "}" "{} in {}" ["bucket"] = None.
Proof. reflexivity. Qed.

Example import_one_name :
  import_from_targets [NAME "DAG"] = Done ["DAG"].
Proof. reflexivity. Qed.

Example import_two_names :
  import_from_targets [NAME "endpoint_config"; COMMA; NAME "deploy_config_from_estimator"]
  = Done ["endpoint_config"; "deploy_config_from_estimator"].
Proof. reflexivity. Qed.

Example import_trailing_comma :
  import_from_targets [NAME "endpoint_config"; COMMA]
  = Raise (SyntaxError "trailing comma not allowed without surrounding parentheses").
Proof. reflexivity. Qed.

Example import_trailing_comma_in_parentheses :
  import_from_targets [LPAR; NAME "endpoint_config"; COMMA; RPAR]
  = Done ["endpoint_config"].
Proof. reflexivity. Qed.

(** The bucket notebook against a service that answers every request. *)
Example bucket_notebook_all_answered :
  (run_cells Create_S3_Bucket.notebook (fresh bucket_created)).1
  = replicate 11 (Done tt)
  ∧ ns (run_cells Create_S3_Bucket.notebook (fresh bucket_created)).2
       !! "setup_s3_bucket_passed" = Some (VBool true)
  ∧ out (run_cells Create_S3_Bucket.notebook (fresh bucket_created)).2
    = ["s3://airflow-us-east-1-123456789012";
       "Default bucket: airflow-us-east-1-123456789012"; "<object>"]
  ∧ stored (run_cells Create_S3_Bucket.notebook (fresh bucket_created)).2
       !! "setup_s3_bucket_passed" = Some (VBool true).
Proof. vm_compute. done. Qed.

(** The IAM notebook when the role and the two policies are already there:
    each creation cell prints its message, and each cell that reads a handle
    raises. *)
Example iam_notebook_role_exists :
  (run_cells IAM_Redshift.notebook (fresh role_exists)).1
  = [Done tt; Done tt; Done tt; Done tt;
     Raise (NameError "iam_role_redshift"); Raise (NameError "iam_role_redshift_arn");
     Done tt; Done tt; Done tt;
     Raise (NameError "policy_redshift_s3"); Raise (NameError "policy_redshift_s3");
     Raise (NameError "policy_redshift_athena");
     Raise (NameError "policy_redshift_athena");
     Raise (NameError "policy_redshift_athena_arn");
     Raise (NameError "policy_redshift_s3_arn")]
  ∧ out (run_cells IAM_Redshift.notebook (fresh role_exists)).2
    = ["Role already exists"; "arn:aws:iam::123456789012:role/DSOAWS_Redshift";
       "Policy already exists"; "Policy already exists"].
Proof. vm_compute. done. Qed.

(** * The IAM notebook *)

Lemma append_empty (s : string) : s +:+ EmptyString = s.
Proof.
  induction s as [|a s IH]; [done|].
  change (String a (s +:+ EmptyString) = String a s). by f_equal.
Qed.

Section IAM.
Context `{World}.
Import IAM_Redshift.

Lemma guarded_try stmt body meth msg :
  (stmt, body, meth, msg) ∈ guarded →
  stmt = try_except body "ClientError" "e" (on_client_error msg).
Proof.
  unfold guarded. intros Hin.
  repeat (apply elem_of_cons in Hin as [Heq|Hin]; [by simplify_eq|]).
  by apply elem_of_nil in Hin.
Qed.

(** The body of a guarded statement raises [ClientError] only when its one
    creation request is rejected, and then nothing but the log and the world
    has changed. *)
Lemma guarded_body_raises stmt body meth msg k :
  (stmt, body, meth, msg) ∈ guarded →
  iam_imports k →
  wp body (λ r k1, ∀ e, r = Raise (ClientError e) →
             ns k1 = ns k ∧ out k1 = out k ∧ flow k1 = flow k
             ∧ stored k1 = stored k
             ∧ ∃ c kwargs, log k1 = log k ++ [Requested (Invoke c meth [] kwargs) (Rejected e)]) k.
Proof.
  unfold guarded. intros Hin [Hjson Hclass].
  repeat (apply elem_of_cons in Hin as [Heq|Hin]; [simplify_eq|]);
    [..|by apply elem_of_nil in Hin].
  all: unfold create_role, create_policy, attach_role_policy.
  all: wp_walk ltac:(try (intros; discriminate)).
  all: simplify_eq; eauto 10.
Qed.

(** What a guarded statement does once its body has run. *)
Lemma guarded_run stmt body meth msg k r k1 :
  (stmt, body, meth, msg) ∈ guarded →
  ns k1 !! "ClientError" = Some (VMember "botocore.exceptions" "ClientError") →
  body k = (r, k1) →
  stmt k =
    match r with
    | Raise (ClientError e) =>
        (Done tt,
         set_ns (delete "e")
           (printed (set_ns (insert "e" (VExc e)) k1)
              (if String.eqb (err_code e) "EntityAlreadyExists" then msg
               else "Unexpected error: " +:+ str_client_error e)))
    | _ => (r, k1)
    end.
Proof.
  intros Hin Hclass Hbody. rewrite (guarded_try _ _ _ _ Hin).
  unfold try_except. rewrite Hbody.
  destruct r as [[]|ex]; [done|]. rewrite Hclass. cbn [is_class].
  destruct ex; try done. cbn [is_ClientError_class String.eqb Ascii.eqb Bool.eqb andb orb].
  match goal with |- (let '(_, _) := ?c ?k0 in _) = ?x =>
    cut (wp c (λ r2 k2, (r2, set_ns (delete "e") k2) = x) k0);
      [unfold wp; by destruct (c k0)|]
  end.
  unfold on_client_error.
  wp_walk idtac; cbn [str]; rewrite ?append_empty; reflexivity.
Qed.

Lemma guarded_handled stmt body meth msg k k1 e :
  (stmt, body, meth, msg) ∈ guarded →
  iam_imports k →
  body k = (Raise (ClientError e), k1) →
  ∃ c kwargs,
    stmt k =
      (Done tt,
       set_ns (delete "e")
         (printed (set_ns (insert "e" (VExc e)) k1)
            (if String.eqb (err_code e) "EntityAlreadyExists" then msg
             else "Unexpected error: " +:+ str_client_error e)))
    ∧ ns k1 = ns k ∧ out k1 = out k ∧ flow k1 = flow k
    ∧ log k1 = log k ++ [Requested (Invoke c meth [] kwargs) (Rejected e)].
Proof.
  intros Hin Himp Hbody.
  destruct (wp_run _ _ _ _ _ (guarded_body_raises _ _ _ _ k Hin Himp) Hbody e eq_refl)
    as (Hns & Hout & Hflow & _ & c & kwargs & Hlog).
  exists c, kwargs. split; [|done].
  rewrite (guarded_run stmt body meth msg k (Raise (ClientError e)) k1 Hin);
    [done| |done].
  rewrite Hns. apply Himp.
Qed.

Lemma run_single (p : py unit) k :
  run_cell [exec p] k = match p k with
                        | (Done _, k') => (Done tt, k')
                        | (Raise ex, k') => (Raise ex, k')
                        end.
Proof.
  unfold run_cell. cbn [compile exec]. unfold mbind, py_bind, bind_py.
  by destruct (p k) as [[[]|ex] k'].
Qed.

(** C5.  When the creation call of a guarded statement is rejected with a
    code other than EntityAlreadyExists, the statement ends normally: the
    handler prints "Unexpected error: ..." and nothing else happens.  The log
    shows the one rejected creation request (no retry, no compensating
    request), and the error is not raised again. *)
Theorem unexpected_error_printed_once stmt body meth msg k k1 e :
  (stmt, body, meth, msg) ∈ guarded →
  iam_imports k →
  body k = (Raise (ClientError e), k1) →
  err_code e ≠ "EntityAlreadyExists" →
  ∃ k2 c kwargs,
    stmt k = (Done tt, k2)
    ∧ out k2 = out k ++ ["Unexpected error: " +:+ str_client_error e]
    ∧ log k2 = log k ++ [Requested (Invoke c meth [] kwargs) (Rejected e)]
    ∧ ns k2 = delete "e" (ns k)
    ∧ flow k2 = flow k.
Proof.
  intros Hin Himp Hbody Hcode.
  destruct (guarded_handled _ _ _ _ _ _ _ Hin Himp Hbody)
    as (c & kwargs & Hstmt & Hns & Hout & Hflow & Hlog).
  apply String.eqb_neq in Hcode. rewrite Hcode in Hstmt.
  eexists _, c, kwargs. split; [exact Hstmt|]. wp_norm.
  rewrite Hns, Hout, Hflow, Hlog. by rewrite delete_insert_eq.
Qed.

(** C3.  With the role (or the policy) already there, the guarded statement
    prints its message and ends normally, but the name its body assigns is
    never bound: the next read of the handle raises [NameError]. *)
Theorem handle_unbound_after_already_exists :
  (∀ k k1 e,
     iam_imports k →
     ns k !! "iam_role_redshift" = None →
     set "iam_role_redshift" create_role k = (Raise (ClientError e), k1) →
     err_code e = "EntityAlreadyExists" →
     ∃ k2, run_cell cell_create_role k = (Done tt, k2)
           ∧ out k2 = out k ++ ["Role already exists"]
           ∧ run_cell cell_role_arn k2 = (Raise (NameError "iam_role_redshift"), k2))
  ∧ (∀ k k1 e,
       iam_imports k →
       ns k !! "policy_redshift_s3" = None →
       set "policy_redshift_s3"
           (create_policy "DSOAWS_RedshiftPolicyToS3" "my_redshift_to_s3") k
       = (Raise (ClientError e), k1) →
       err_code e = "EntityAlreadyExists" →
       ∃ k2, run_cell cell_create_policy_s3 k
             = (Raise (NameError "policy_redshift_s3"), k2)
             ∧ out k2 = out k ++ ["Policy already exists"]).
Proof.
  split; intros k k1 e Himp Hnone Hbody Hcode.
  - destruct (guarded_handled try_create_role _ "create_role" "Role already exists"
                k k1 e ltac:(unfold guarded; repeat econstructor) Himp Hbody)
      as (c & kwargs & Hstmt & Hns & Hout & _).
    apply String.eqb_eq in Hcode. rewrite Hcode in Hstmt.
    eexists. split; [|split].
    + unfold cell_create_role. rewrite run_single, Hstmt. reflexivity.
    + wp_norm. by rewrite Hout.
    + unfold run_cell, cell_role_arn. cbn [compile exec].
      match goal with |- ?c ?k0 = ?x =>
        cut (wp c (λ r k', (r, k') = x) k0); [unfold wp; by destruct (c k0)|]
      end.
      rewrite <- Hns in Hnone. wp_walk idtac. reflexivity.
  - destruct (guarded_handled try_create_policy_s3 _ "create_policy"
                "Policy already exists" k k1 e ltac:(unfold guarded; repeat econstructor)
                Himp Hbody)
      as (c & kwargs & Hstmt & Hns & Hout & _).
    apply String.eqb_eq in Hcode. rewrite Hcode in Hstmt.
    unfold run_cell, cell_create_policy_s3. cbn [compile exec].
    unfold mbind at 1, py_bind, bind_py. rewrite Hstmt.
    eexists. split.
    + match goal with |- ?c ?k0 = (_, ?k2) =>
        cut (wp c (λ r k', r = Raise (NameError "policy_redshift_s3") ∧ k' = k0) k0);
          [unfold wp; destruct (c k0); cbn [fst snd]; intros [-> ->]; reflexivity|]
      end.
      rewrite <- Hns in Hnone. by wp_walk idtac.
    + wp_norm. by rewrite Hout.
Qed.

End IAM.

Lemma unexpected_error_printed_once_witness :
  ∃ k2 c kwargs,
    @IAM_Redshift.try_create_role scripted (iam_before 3 role_denied) = (Done tt, k2)
    ∧ out k2 = out (iam_before 3 role_denied)
               ++ ["Unexpected error: " +:+ str_client_error access_denied]
    ∧ log k2 = log (iam_before 3 role_denied)
               ++ [Requested (Invoke c "create_role" [] kwargs) (Rejected access_denied)]
    ∧ ns k2 = delete "e" (ns (iam_before 3 role_denied))
    ∧ flow k2 = flow (iam_before 3 role_denied).
Proof.
  eapply (@unexpected_error_printed_once scripted IAM_Redshift.try_create_role _
            "create_role" _ (iam_before 3 role_denied)).
  - unfold IAM_Redshift.guarded. repeat econstructor.
  - split; vm_compute; reflexivity.
  - vm_compute. reflexivity.
  - vm_compute. discriminate.
Defined.

Lemma handle_unbound_after_already_exists_witness :
  (∃ k2, run_cell (@IAM_Redshift.cell_create_role scripted) (iam_before 3 role_exists)
         = (Done tt, k2)
         ∧ out k2 = out (iam_before 3 role_exists) ++ ["Role already exists"]
         ∧ run_cell IAM_Redshift.cell_role_arn k2
           = (Raise (NameError "iam_role_redshift"), k2))
  ∧ (∃ k2, run_cell (@IAM_Redshift.cell_create_policy_s3 scripted)
                    (iam_before 9 role_exists)
           = (Raise (NameError "policy_redshift_s3"), k2)
           ∧ out k2 = out (iam_before 9 role_exists) ++ ["Policy already exists"]).
Proof.
  split.
  - eapply (proj1 (@handle_unbound_after_already_exists scripted)).
    + split; vm_compute; reflexivity.
    + vm_compute. reflexivity.
    + vm_compute. reflexivity.
    + reflexivity.
  - eapply (proj2 (@handle_unbound_after_already_exists scripted)).
    + split; vm_compute; reflexivity.
    + vm_compute. reflexivity.
    + vm_compute. reflexivity.
    + reflexivity.
Defined.

(** * The bucket notebook *)

Ltac explicit_log k :=
  first [ exact (eq_sym (app_nil_r (log k)))
        | repeat rewrite <- (app_assoc (log k)); cbn [app]; reflexivity ].

Ltac each_event Hin :=
  repeat (apply elem_of_cons in Hin as [Hin|Hin]; [by simplify_eq|]);
  by apply elem_of_nil in Hin.

Section Bucket.
Context `{World}.
Import Create_S3_Bucket.

(** The creation cell, when it completes: its last two requests create the
    bucket and block public access to it; before them no request names a
    bucket. *)
Lemma create_cell_done k :
  wp (run_cell cell_create)
     (λ r k', r = Done tt →
        ∃ l c b v1 v2,
          log k' = log k ++ l ++
            [Requested (Invoke c "create_bucket" [] [("Bucket", VStr b)]) (Returned v1);
             Requested (Invoke c "put_public_access_block" []
                               [("Bucket", VStr b);
                                ("PublicAccessBlockConfiguration", all_blocked)])
                       (Returned v2)]
          ∧ bucket_ops l = []
          ∧ ns k' !! "s3" = Some c ∧ is_foreign c = true
          ∧ ns k' !! "airflow_bucket_name" = Some (VStr b)
          ∧ out k' = out k) k.
Proof.
  unfold run_cell. cbn [compile cell_create from_import import exec].
  unfold public_access_block. wp_name_post.
  wp_walk ltac:(try (subst Φ; cbv beta; done)).
  all: subst Φ; cbv beta; intros _; wp_norm.
  all: repeat rewrite <- (app_assoc (log k)).
  all: cbn [app].
  all: eexists _, _, _, _, _; split; [f_equal; split_tail|].
  all: lookup; done.
Qed.

(** Whatever happens in the creation cell, a request it sends to block public
    access carries the four settings, all true; nothing is printed; and a
    rejected request ends the cell with the error the service gave. *)
Lemma create_cell_requests k :
  wp (run_cell cell_create)
     (λ r k', ∃ new,
        log k' = log k ++ new
        ∧ out k' = out k
        ∧ (∀ rq e, Requested rq (Rejected e) ∈ new → r = Raise (ClientError e))
        ∧ (∀ c args kwargs o,
             Requested (Invoke c "put_public_access_block" args kwargs) o ∈ new →
             assoc "PublicAccessBlockConfiguration" kwargs = Some all_blocked)) k.
Proof.
  unfold run_cell. cbn [compile cell_create from_import import exec].
  unfold public_access_block. wp_name_post.
  wp_walk ltac:(subst Φ; cbv beta; wp_norm).
  all: eexists; split; [explicit_log k|].
  all: split; [done|].
  all: split; [intros rq e' Hin|intros c' args' kwargs' o' Hin]; each_event Hin.
Qed.

(** C10.  When the creation cell has run to its end, the last thing it did
    was to create the bucket and then to block public access to that same
    bucket with BlockPublicAcls, IgnorePublicAcls, BlockPublicPolicy and
    RestrictPublicBuckets all true; and no run of the cell, complete or not,
    sends a public-access-block request with any other configuration. *)
Theorem bucket_blocks_public_access k r k' :
  run_cell cell_create k = (r, k') →
  (r = Done tt →
   ∃ l c b v1 v2,
     log k' = log k ++ l ++
       [Requested (Invoke c "create_bucket" [] [("Bucket", VStr b)]) (Returned v1);
        Requested (Invoke c "put_public_access_block" []
                          [("Bucket", VStr b);
                           ("PublicAccessBlockConfiguration", all_blocked)])
                  (Returned v2)])
  ∧ (∀ c args kwargs o,
       Requested (Invoke c "put_public_access_block" args kwargs) o
         ∈ drop (length (log k)) (log k') →
       assoc "PublicAccessBlockConfiguration" kwargs = Some all_blocked).
Proof.
  intros Hrun. split.
  - intros Hr.
    destruct (wp_run _ _ _ _ _ (create_cell_done k) Hrun Hr)
      as (l & c & b & v1 & v2 & Hlog & _). eauto 10.
  - destruct (wp_run _ _ _ _ _ (create_cell_requests k) Hrun)
      as (new & Hlog & _ & _ & Hpab).
    rewrite Hlog, drop_app_length. exact Hpab.
Qed.


End Bucket.

Lemma bucket_blocks_public_access_witness :
  (∃ l c b v1 v2,
     log (run_cell Create_S3_Bucket.cell_create (fresh bucket_created)).2 =
       log (fresh bucket_created) ++ l ++
       [Requested (Invoke c "create_bucket" [] [("Bucket", VStr b)]) (Returned v1);
        Requested (Invoke c "put_public_access_block" []
                          [("Bucket", VStr b);
                           ("PublicAccessBlockConfiguration", all_blocked)])
                  (Returned v2)]).
Proof.
  refine (proj1 (@bucket_blocks_public_access scripted
                   (fresh bucket_created) _ _ (surjective_pairing _)) _).
  vm_compute. reflexivity.
Defined.



(** * Which creation calls are guarded *)

Section Guards.
Context `{World}.

(** C2, as the code has it.  Each of the five IAM creation statements
    (create_role, create_policy twice, attach_role_policy twice) sits in a
    [try] whose handler, for the code EntityAlreadyExists, prints the
    statement's message and ends normally.  The bucket notebook's
    [create_bucket] has no handler: a request of its cell that the service
    rejects ends the cell with that error, and nothing is printed. *)
Theorem iam_creations_guarded_bucket_creation_bare :
  (∀ stmt body meth msg k k1 e,
     (stmt, body, meth, msg) ∈ IAM_Redshift.guarded →
     iam_imports k →
     body k = (Raise (ClientError e), k1) →
     err_code e = "EntityAlreadyExists" →
     ∃ k2, stmt k = (Done tt, k2) ∧ out k2 = out k ++ [msg] ∧ log k2 = log k1)
  ∧ (∀ k r k' rq e,
       run_cell Create_S3_Bucket.cell_create k = (r, k') →
       Requested rq (Rejected e) ∈ drop (length (log k)) (log k') →
       r = Raise (ClientError e) ∧ out k' = out k).
Proof.
  split.
  - intros stmt body meth msg k k1 e Hin Himp Hbody Hcode.
    destruct (guarded_handled _ _ _ _ _ _ _ Hin Himp Hbody)
      as (c & kwargs & Hstmt & _ & Hout & _).
    apply String.eqb_eq in Hcode. rewrite Hcode in Hstmt.
    eexists. split; [exact Hstmt|]. wp_norm. by rewrite Hout.
  - intros k r k' rq e Hrun Hin.
    destruct (wp_run _ _ _ _ _ (create_cell_requests k) Hrun)
      as (new & Hlog & Hout & Hrej & _).
    rewrite Hlog, drop_app_length in Hin. eauto.
Qed.

End Guards.

(** C2 as stated fails on [create_bucket]: when the service answers that the
    bucket is already owned, the creation cell raises that error and prints
    nothing. *)
Lemma create_bucket_rejection_uncaught :
  (run_cell Create_S3_Bucket.cell_create (fresh bucket_owned)).1
  = Raise (ClientError {| err_code := "BucketAlreadyOwnedByYou";
                          err_message := "rejected";
                          err_operation := "CreateBucket" |})
  ∧ out (run_cell Create_S3_Bucket.cell_create (fresh bucket_owned)).2 = [].
Proof. vm_compute. split; reflexivity. Qed.

Lemma iam_creations_guarded_bucket_creation_bare_witness :
  (∃ k2, IAM_Redshift.try_create_role (iam_before 3 role_exists) = (Done tt, k2)
         ∧ out k2 = out (iam_before 3 role_exists) ++ ["Role already exists"]
         ∧ log k2 = log (set "iam_role_redshift" IAM_Redshift.create_role
                             (iam_before 3 role_exists)).2)
  ∧ (run_cell Create_S3_Bucket.cell_create (fresh bucket_owned)).1
    = Raise (ClientError {| err_code := "BucketAlreadyOwnedByYou";
                            err_message := "rejected";
                            err_operation := "CreateBucket" |}).
Proof.
  split.
  - eapply (proj1 (@iam_creations_guarded_bucket_creation_bare scripted)
              IAM_Redshift.try_create_role _ "create_role" _
              (iam_before 3 role_exists)
              (set "iam_role_redshift" IAM_Redshift.create_role
                   (iam_before 3 role_exists)).2).
    + unfold IAM_Redshift.guarded. repeat econstructor.
    + split; vm_compute; reflexivity.
    + vm_compute. reflexivity.
    + reflexivity.
  - eapply (proj2 (@iam_creations_guarded_bucket_creation_bare scripted)
              (fresh bucket_owned) _ _ _ _ (surjective_pairing _)).
    vm_compute. repeat econstructor.
Defined.

(** * The workflow DAG notebook *)

Section DAG.
Context `{World}.
Import Airflow_DAG.

(** A run of the notebook from a fresh kernel sends no request at all: only
    the DAG gets constructed, and it refuses the model operator, the one
    operator whose constructor is reached, for want of a start date. *)
Lemma dag_fresh_run w0 :
  (run_cells notebook (fresh_kernel w0)).1 =
    [Done tt; Raise (NameError "DummyOperator"); Raise (NameError "estimator");
     Raise (NameError "process_op"); Raise (NameError "role");
     Raise (NameError "estimator"); Raise (NameError "train_op");
     Raise (AirflowException "Task is missing the start_date parameter");
     Raise (NameError "model_op");
     Raise (SyntaxError "trailing comma not allowed without surrounding parentheses");
     Raise (NameError "deploy_op"); Raise (NameError "init")]
  ∧ edges (flow (run_cells notebook (fresh_kernel w0)).2) = ∅
  ∧ dom (tasks (flow (run_cells notebook (fresh_kernel w0)).2)) = ∅
  ∧ log (run_cells notebook (fresh_kernel w0)).2 = [].
Proof. vm_compute. done. Qed.

(** "Run All" stops at the second cell. *)
Lemma dag_fresh_run_all w0 :
  (run_all notebook (fresh_kernel w0)).1 = Raise (NameError "DummyOperator")
  ∧ edges (flow (run_all notebook (fresh_kernel w0)).2) = ∅
  ∧ tasks (flow (run_all notebook (fresh_kernel w0)).2) = ∅.
Proof. vm_compute. done. Qed.

Lemma chain_not_empty : chain ≠ ∅.
Proof.
  intros Heq.
  apply (f_equal (λ s : gset (string * string), bool_decide (("start", "process") ∈ s)))
    in Heq.
  vm_compute in Heq. discriminate.
Qed.

(** What the notebook is after: with the five operators bound, the four
    [set_upstream] cells wire exactly the chain. *)
Lemma upstream_cells_wire_chain k :
  ns k !! "init" = Some (VTask "start") →
  ns k !! "process_op" = Some (VTask "process") →
  ns k !! "train_op" = Some (VTask "train") →
  ns k !! "model_op" = Some (VTask "model") →
  ns k !! "deploy_op" = Some (VTask "deploy") →
  edges (flow k) = ∅ →
  wps [cell_process_upstream; cell_train_upstream; cell_model_upstream;
       cell_deploy_upstream]
      (λ rs kf, rs = [Done tt; Done tt; Done tt; Done tt]
                ∧ edges (flow kf) = chain) k.
Proof.
  intros Hinit Hprocess Htrain Hmodel Hdeploy Hedges.
  wp_cells. wp_norm. split; [done|]. rewrite Hedges. unfold chain. set_solver.
Qed.

(** The last cell, even with [init] and [process_op] bound to tasks, stops
    at its second statement. *)
Lemma dependencies_cell_stops k a b :
  ns k !! "init" = Some (VTask a) →
  ns k !! "process_op" = Some (VTask b) →
  ns k !! "processing_op" = None →
  wp (run_cell cell_dependencies)
     (λ r k', r = Raise (NameError "processing_op")
              ∧ edges (flow k') = {[(a, b)]} ∪ edges (flow k)) k.
Proof.
  intros Hinit Hprocess Hnone.
  unfold run_cell, cell_dependencies. cbn [compile exec].
  by wp_walk idtac.
Qed.

Lemma dependencies_cell_raises k :
  ns k !! "processing_op" = None →
  wp (run_cell cell_dependencies) (λ r _, ∃ ex, r = Raise ex) k.
Proof.
  intros Hnone. unfold run_cell, cell_dependencies. cbn [compile exec].
  wp_walk idtac; eauto.
Qed.

Ltac unbound_after_cell :=
  let k := fresh "k" in
  let Hk := fresh "Hk" in
  intros k Hk; unfold run_cell;
  lazymatch goal with |- context [compile (?c _)] => unfold c end;
  cbn [compile from_import import_from_targets import_names import exec];
  unfold hyperparameters, make_process_op, make_train_op, make_model_op,
    make_deploy_op;
  wp_walk ltac:(wp_norm; lookup; done).

(** No cell of the notebook binds [processing_op]. *)
Lemma no_cell_binds_processing_op :
  Forall (λ c, ∀ k, ns k !! "processing_op" = None →
               wp (run_cell c) (λ _ k', ns k' !! "processing_op" = None) k)
         notebook.
Proof. unfold notebook. repeat (constructor; [unbound_after_cell|]). constructor. Qed.

(** The cells before the processing cell do not bind [estimator]. *)
Lemma no_early_cell_binds_estimator :
  Forall (λ c, ∀ k, ns k !! "estimator" = None →
               wp (run_cell c) (λ _ k', ns k' !! "estimator" = None) k)
         [cell_dag; cell_init].
Proof. repeat (constructor; [unbound_after_cell|]). constructor. Qed.

Lemma process_cell_raises k :
  ns k !! "estimator" = None →
  wp (run_cell cell_process) (λ r _, r = Raise (NameError "estimator")) k.
Proof.
  intros Hnone. unfold run_cell, cell_process.
  cbn [compile from_import import_from_targets import_names exec].
  by wp_walk idtac.
Qed.

(** What holds of the kernel however the cells have been run so far: the
    names the notebook reads without ever binding them stay unbound, and with
    them the estimator and the operators built from it; the DAG, if there, is
    the one of the first cell, without a start date; no dependency is set
    and no task is registered. *)
Lemma dag_cells_invariant :
  Forall (λ c, ∀ k,
            (ns k !! "DummyOperator" = None ∧ ns k !! "role" = None
             ∧ ns k !! "processing_op" = None ∧ ns k !! "init" = None
             ∧ ns k !! "estimator" = None ∧ ns k !! "process_op" = None
             ∧ ns k !! "train_op" = None ∧ ns k !! "deploy_op" = None
             ∧ (ns k !! "dag" = None
                ∨ ns k !! "dag" = Some (VDag "bert_reviews" bert_reviews_arguments))
             ∧ edges (flow k) = ∅ ∧ tasks (flow k) = ∅) →
            wp (run_cell c)
               (λ _ k',
                  ns k' !! "DummyOperator" = None ∧ ns k' !! "role" = None
                  ∧ ns k' !! "processing_op" = None ∧ ns k' !! "init" = None
                  ∧ ns k' !! "estimator" = None ∧ ns k' !! "process_op" = None
                  ∧ ns k' !! "train_op" = None ∧ ns k' !! "deploy_op" = None
                  ∧ (ns k' !! "dag" = None
                     ∨ ns k' !! "dag" = Some (VDag "bert_reviews" bert_reviews_arguments))
                  ∧ edges (flow k') = ∅ ∧ tasks (flow k') = ∅) k)
         notebook.
Proof.
  unfold notebook.
  repeat (constructor;
          [intros k (H1 & H2 & H3 & H4 & H5 & H6 & H7 & H8 & [H9|H9] & H10 & H11);
           unfold run_cell;
           lazymatch goal with |- context [compile (?c _)] => unfold c end;
           cbn [compile from_import import_from_targets import_names import exec];
           unfold hyperparameters, make_process_op, make_train_op, make_model_op,
             make_deploy_op;
           wp_name_post; wp_walk idtac; wp_post; wp_norm; lookup;
           repeat (split; [first [done | by left | by right]|]); done|]).
  constructor.
Qed.

Lemma dag_no_task (cs : list cell) w0 :
  Forall (λ c, c ∈ notebook) cs →
  edges (flow (run_cells cs (fresh_kernel w0)).2) = ∅
  ∧ tasks (flow (run_cells cs (fresh_kernel w0)).2) = ∅.
Proof.
  intros Hcs.
  assert (ns (run_cells cs (fresh_kernel w0)).2 !! "DummyOperator" = None
          ∧ ns (run_cells cs (fresh_kernel w0)).2 !! "role" = None
          ∧ ns (run_cells cs (fresh_kernel w0)).2 !! "processing_op" = None
          ∧ ns (run_cells cs (fresh_kernel w0)).2 !! "init" = None
          ∧ ns (run_cells cs (fresh_kernel w0)).2 !! "estimator" = None
          ∧ ns (run_cells cs (fresh_kernel w0)).2 !! "process_op" = None
          ∧ ns (run_cells cs (fresh_kernel w0)).2 !! "train_op" = None
          ∧ ns (run_cells cs (fresh_kernel w0)).2 !! "deploy_op" = None
          ∧ (ns (run_cells cs (fresh_kernel w0)).2 !! "dag" = None
             ∨ ns (run_cells cs (fresh_kernel w0)).2 !! "dag"
               = Some (VDag "bert_reviews" bert_reviews_arguments))
          ∧ edges (flow (run_cells cs (fresh_kernel w0)).2) = ∅
          ∧ tasks (flow (run_cells cs (fresh_kernel w0)).2) = ∅)
    as (_ & _ & _ & _ & _ & _ & _ & _ & _ & Hedges & Htasks); [|done].
  apply (run_cells_invariant
           (λ k, ns k !! "DummyOperator" = None ∧ ns k !! "role" = None
                 ∧ ns k !! "processing_op" = None ∧ ns k !! "init" = None
                 ∧ ns k !! "estimator" = None ∧ ns k !! "process_op" = None
                 ∧ ns k !! "train_op" = None ∧ ns k !! "deploy_op" = None
                 ∧ (ns k !! "dag" = None
                    ∨ ns k !! "dag" = Some (VDag "bert_reviews" bert_reviews_arguments))
                 ∧ edges (flow k) = ∅ ∧ tasks (flow k) = ∅)).
  - pose proof dag_cells_invariant as Hall. rewrite Forall_forall in Hall.
    eapply Forall_impl; [exact Hcs|]. intros c Hc. by apply Hall.
  - cbn [fresh_kernel ns flow no_airflow edges tasks].
    repeat (split; [first [done | by left]|]). done.
Qed.

(** C4.  Each of the four statements that construct a SageMaker operator,
    run in a kernel where the operator can be constructed (its class is
    imported, the configurations are there, the DAG has a start date),
    completes and registers the operator under its task_id with the keyword
    wait_for_completion set to True.  But no run of the notebook's cells from
    a fresh kernel, in whatever order and however often, reaches such a
    kernel: no operator is ever registered. *)
Theorem sagemaker_operators_wait_for_completion :
  (∀ id cls make k m d dag_kwargs,
     (id, cls, make) ∈ sagemaker_operators →
     ns k !! cls = Some (VMember m cls) →
     ns k !! "dag" = Some (VDag d dag_kwargs) →
     given dag_kwargs "start_date" = true →
     Forall (λ x, is_Some (ns k !! x))
            ["process_config"; "train_config"; "model_config"; "endpoint_config"] →
     ∃ kwargs,
       (make k).1 = Done tt
       ∧ tasks (flow (make k).2) !! id
         = Some {| task_operator := cls; task_kwargs := kwargs |}
       ∧ assoc "wait_for_completion" kwargs = Some (VBool true))
  ∧ (∀ cs w0,
       Forall (λ c, c ∈ notebook) cs →
       tasks (flow (run_cells cs (fresh_kernel w0)).2) = ∅).
Proof.
  split; [|intros cs w0 Hcs; by apply dag_no_task].
  intros id cls make k m d dag_kwargs Hin Hcls Hdag Hdate Hconfigs.
  apply Forall_cons_1 in Hconfigs as [[c1 Hc1] Hconfigs].
  apply Forall_cons_1 in Hconfigs as [[c2 Hc2] Hconfigs].
  apply Forall_cons_1 in Hconfigs as [[c3 Hc3] Hconfigs].
  apply Forall_cons_1 in Hconfigs as [[c4 Hc4] _].
  change (wp make (λ r k', ∃ kwargs,
            r = Done tt
            ∧ tasks (flow k') !! id
              = Some {| task_operator := cls; task_kwargs := kwargs |}
            ∧ assoc "wait_for_completion" kwargs = Some (VBool true)) k).
  unfold sagemaker_operators in Hin.
  repeat (apply elem_of_cons in Hin as [Hin|Hin]; [simplify_eq|]);
    [..|by apply elem_of_nil in Hin].
  all: unfold make_process_op, make_train_op, make_model_op, make_deploy_op.
  all: wp_walk idtac.
  all: try (unfold has_start_date in *; rewrite Hdate in *;
            rewrite orb_true_r in *; discriminate).
  all: eexists; split; [done|]; lookup; split; [done|done].
Qed.

(** C1 on the code.  From a fresh kernel the notebook wires nothing.  Run
    cell by cell, no dependency is ever set, no task is registered, the
    last cell raises, and the DAG at the end is not the
    five-node chain; run with "Run All", execution stops at the second cell
    with no task and no dependency. *)
Theorem dag_chain_not_built w0 :
  edges (flow (run_cells notebook (fresh_kernel w0)).2) = ∅
  ∧ dom (tasks (flow (run_cells notebook (fresh_kernel w0)).2)) = ∅
  ∧ edges (flow (run_cells notebook (fresh_kernel w0)).2) ≠ chain
  ∧ (run_cells notebook (fresh_kernel w0)).1 !! 11%nat
    = Some (Raise (NameError "init"))
  ∧ (run_all notebook (fresh_kernel w0)).1 = Raise (NameError "DummyOperator")
  ∧ edges (flow (run_all notebook (fresh_kernel w0)).2) = ∅.
Proof.
  destruct (dag_fresh_run w0) as (Hrs & Hedges & Htasks & _).
  destruct (dag_fresh_run_all w0) as (Hall & Hedges' & _).
  rewrite Hrs, Hedges, Htasks, Hall, Hedges'. split; [done|]. split; [done|].
  split; [|done]. intros Heq. by apply chain_not_empty.
Qed.

(** C9.  Run top to bottom in a fresh kernel, the processing cell raises
    NameError on [estimator], the endpoint cell raises SyntaxError, the last
    cell raises, and the chain is not there at the end.  More generally: in
    any kernel where [estimator] is unbound the processing cell still raises
    NameError on it, since no earlier cell binds it; the endpoint cell is a
    syntax error in every kernel; and in any kernel where [processing_op] is
    unbound the last cell raises, since no cell binds that name: with [init]
    and [process_op] bound to tasks the error is NameError on
    [processing_op]. *)
Theorem dag_notebook_cells_raise :
  (∀ w0,
     (run_cells notebook (fresh_kernel w0)).1 !! 2%nat
     = Some (Raise (NameError "estimator"))
     ∧ (run_cells notebook (fresh_kernel w0)).1 !! 9%nat
       = Some (Raise (SyntaxError
                        "trailing comma not allowed without surrounding parentheses"))
     ∧ (∃ ex, (run_cells notebook (fresh_kernel w0)).1 !! 11%nat = Some (Raise ex))
     ∧ edges (flow (run_cells notebook (fresh_kernel w0)).2) ≠ chain)
  ∧ (∀ k, ns k !! "estimator" = None →
          (run_cells notebook k).1 !! 2%nat = Some (Raise (NameError "estimator")))
  ∧ (∀ k, run_cell cell_deploy k
          = (Raise (SyntaxError
                      "trailing comma not allowed without surrounding parentheses"), k))
  ∧ (∀ k, ns k !! "processing_op" = None →
          ∃ ex, (run_cells notebook k).1 !! 11%nat = Some (Raise ex))
  ∧ (∀ k a b,
       ns k !! "init" = Some (VTask a) →
       ns k !! "process_op" = Some (VTask b) →
       ns k !! "processing_op" = None →
       (run_cell cell_dependencies k).1 = Raise (NameError "processing_op")).
Proof.
  split; [|split; [|split; [|split]]].
  - intros w0. destruct (dag_fresh_run w0) as (Hrs & Hedges & _).
    rewrite Hrs, Hedges. split; [done|]. split; [done|]. split; [by eexists|].
    intros Heq. by apply chain_not_empty.
  - intros k Hnone.
    pose proof (run_cells_nth [cell_dag; cell_init] cell_process
                  (drop 3 notebook) k) as Hnth.
    change ([cell_dag; cell_init] ++ cell_process :: drop 3 notebook)
      with notebook in Hnth.
    change (length [cell_dag; cell_init]) with 2%nat in Hnth.
    rewrite Hnth. f_equal. apply process_cell_raises.
    apply (run_cells_invariant (λ k0, ns k0 !! "estimator" = None)); [|done].
    apply no_early_cell_binds_estimator.
  - done.
  - intros k Hnone.
    pose proof (run_cells_nth (take 11 notebook) cell_dependencies [] k) as Hnth.
    change (take 11 notebook ++ [cell_dependencies]) with notebook in Hnth.
    change (length (take 11 notebook)) with 11%nat in Hnth.
    rewrite Hnth.
    destruct (dependencies_cell_raises (run_cells (take 11 notebook) k).2) as [ex Hex].
    + apply (run_cells_invariant (λ k0, ns k0 !! "processing_op" = None)); [|done].
      apply Forall_take, no_cell_binds_processing_op.
    + exists ex. by rewrite <- Hex.
  - intros k a b Hinit Hprocess Hnone.
    apply (dependencies_cell_stops k a b Hinit Hprocess Hnone).
Qed.

End DAG.

Lemma sagemaker_operators_wait_for_completion_witness :
  (∃ kwargs,
     (Airflow_DAG.make_deploy_op ready_for_operators).1 = Done tt
     ∧ tasks (flow (Airflow_DAG.make_deploy_op ready_for_operators).2) !! "deploy"
       = Some {| task_operator := "SageMakerEndpointOperator"; task_kwargs := kwargs |}
     ∧ assoc "wait_for_completion" kwargs = Some (VBool true))
  ∧ tasks (flow (run_cells Airflow_DAG.notebook (fresh [])).2) = ∅.
Proof.
  split.
  - apply (proj1 (@sagemaker_operators_wait_for_completion scripted)
             "deploy" "SageMakerEndpointOperator" Airflow_DAG.make_deploy_op
             ready_for_operators
             "airflow.contrib.operators.sagemaker_endpoint_operator"
             "bert_reviews"
             (("start_date", VStr "2021-01-01") :: bert_reviews_arguments)).
    + unfold Airflow_DAG.sagemaker_operators. repeat econstructor.
    + reflexivity.
    + reflexivity.
    + reflexivity.
    + repeat constructor; by eexists.
  - apply (proj2 (@sagemaker_operators_wait_for_completion scripted)
             Airflow_DAG.notebook []).
    unfold Airflow_DAG.notebook. repeat constructor.
Defined.

Lemma dag_notebook_cells_raise_witness :
  (run_cells Airflow_DAG.notebook (fresh [])).1 !! 2%nat
  = Some (Raise (NameError "estimator"))
  ∧ (∃ ex, (run_cells Airflow_DAG.notebook (fresh [])).1 !! 11%nat = Some (Raise ex))
  ∧ (run_cell Airflow_DAG.cell_dependencies operators_bound).1
    = Raise (NameError "processing_op").
Proof.
  pose proof (@dag_notebook_cells_raise scripted) as (_ & Hestimator & _ & Hlast & Hstop).
  split; [|split].
  - apply Hestimator. reflexivity.
  - apply Hlast. reflexivity.
  - apply (Hstop operators_bound "start" "process"); reflexivity.
Defined.

(** In the chain every task but the first has its predecessor as sole
    upstream task. *)
Lemma chain_sole_upstream a :
  edges a = Airflow_DAG.chain →
  Airflow_DAG.upstream_of a "start" = ∅
  ∧ Airflow_DAG.upstream_of a "process" = {["start"]}
  ∧ Airflow_DAG.upstream_of a "train" = {["process"]}
  ∧ Airflow_DAG.upstream_of a "model" = {["train"]}
  ∧ Airflow_DAG.upstream_of a "deploy" = {["model"]}.
Proof.
  intros Hedges. unfold Airflow_DAG.upstream_of, Airflow_DAG.chain in *.
  rewrite Hedges. repeat split; set_solver.
Qed.

(** The four [set_upstream] cells do wire the chain once the operators exist. *)
Example upstream_cells_on_bound_operators :
  edges (flow (run_cells [Airflow_DAG.cell_process_upstream;
                          Airflow_DAG.cell_train_upstream;
                          Airflow_DAG.cell_model_upstream;
                          Airflow_DAG.cell_deploy_upstream] operators_bound).2)
  = Airflow_DAG.chain.
Proof.
  refine (proj2 (wps_run _ _ _ _ _
                   (@upstream_cells_wire_chain scripted operators_bound _ _ _ _ _ _)
                   (surjective_pairing _)));
    reflexivity.
Qed.

(** * Feature preprocessing *)

Section Featurization.
Import Featurization.
Variable fingerprint : string → N.
Variable split : string → list string.
Variable word_vocabulary : list string.
Variable weights : nat → nat → Qc.

Lemma index_of_Some s l i :
  index_of s l = Some i → l !! i = Some s ∧ (i < length l)%nat.
Proof.
  revert i. induction l as [|x l IH]; intros i; cbn [index_of]; [done|].
  destruct (String.eqb_spec s x) as [->|Hne].
  - intros [= <-]. cbn. split; [done|lia].
  - destruct (index_of s l) as [j|]; [|done]. intros [= <-].
    destruct (IH j eq_refl). cbn. split; [done|lia].
Qed.

Lemma index_of_None s l : index_of s l = None → s ∉ l.
Proof.
  induction l as [|x l IH]; cbn [index_of]; [intros _; apply not_elem_of_nil|].
  destruct (String.eqb_spec s x) as [->|Hne]; [done|].
  destruct (index_of s l); [done|]. intros _.
  apply not_elem_of_cons. auto.
Qed.

Lemma index_of_elem s l : s ∈ l → is_Some (index_of s l).
Proof.
  intros Hin. destruct (index_of s l) eqn:E; [eauto|].
  by apply index_of_None in E.
Qed.

(** C8.  The vocabulary lookup is total with values inside the vocabulary: a
    string missing from the vocabulary gets index 1, the index of the "[UNK]"
    entry, which no adapted token other than the reserved entries gets; and
    the hashing layer sends every string to a bin below 200000. *)
Theorem categorical_lookups_total (adapted : list string) (s : string) :
  (string_lookup fingerprint adapted s < vocab_size adapted)%nat
  ∧ (s ∉ get_vocabulary adapted →
     string_lookup fingerprint adapted s = 1%nat
     ∧ get_vocabulary adapted !! 1%nat = Some oov_token)
  ∧ (s ∈ adapted → s ≠ mask_token →
     (2 ≤ string_lookup fingerprint adapted s)%nat)
  ∧ (movie_title_hashing fingerprint s < 200000)%N.
Proof.
  unfold string_lookup, vocab_size, get_vocabulary, num_oov_indices.
  cbn [length]. rewrite N.mod_1_r. cbn [N.to_nat].
  split; [|split; [|split]].
  - destruct (String.eqb_spec s mask_token); [lia|].
    destruct (index_of s adapted) as [i|] eqn:E; [|lia].
    apply index_of_Some in E as [_ Hi]. lia.
  - intros Hout. split; [|done].
    apply not_elem_of_cons in Hout as [Hmask Hout].
    apply not_elem_of_cons in Hout as [_ Hout].
    destruct (String.eqb_spec s mask_token); [done|].
    destruct (index_of s adapted) as [i|] eqn:E; [|done].
    apply index_of_Some in E as [E _].
    exfalso. apply Hout. by eapply list_elem_of_lookup_2.
  - intros Hin Hmask.
    destruct (String.eqb_spec s mask_token); [done|].
    destruct (index_of_elem s adapted Hin) as [i ->]. lia.
  - unfold movie_title_hashing, hashing, num_hashing_bins.
    apply N.mod_lt. done.
Qed.

Lemma embedding_length dim id : length (embedding weights dim id) = dim.
Proof. unfold embedding. by rewrite length_map, length_seq. Qed.

Lemma vadd_zeros_l dim v : length v = dim → vadd (zeros dim) v = v.
Proof.
  intros <-. unfold vadd, zeros.
  induction v as [|x v IH]; [done|]. cbn. by rewrite Qcplus_0_l, IH.
Qed.

Lemma vsum_length dim vs :
  Forall (λ v, length v = dim) vs → length (vsum dim vs) = dim.
Proof.
  unfold vsum. induction 1 as [|v vs Hv _ IH]; cbn [foldr].
  - apply length_replicate.
  - unfold vadd at 1. rewrite length_zip_with. cbv beta in Hv. rewrite Hv, IH.
    apply Nat.min_id.
Qed.

Lemma masked_false dim v : length v = dim → masked false v = zeros dim.
Proof.
  intros <-. unfold masked, zeros. induction v as [|x v IH]; [done|].
  cbn. by rewrite IH.
Qed.

(** Padding and masking cancel: over a row of non-zero ids followed by zeros,
    the masked sum is the sum over the ids, and the mask counts the ids. *)
Lemma masked_sum dim ids p :
  Forall (λ id, id ≠ 0%nat) ids →
  vsum dim (zip_with masked (map (λ id, negb (Nat.eqb id 0)) (ids ++ replicate p 0%nat))
                     (map (embedding weights dim) (ids ++ replicate p 0%nat)))
  = vsum dim (map (embedding weights dim) ids).
Proof.
  unfold vsum. induction 1 as [|id ids Hid _ IH]; cbn [app map zip_with foldr].
  - induction p as [|p IHp]; [done|]. cbn [replicate map zip_with foldr Nat.eqb negb].
    rewrite IHp, (masked_false dim) by apply embedding_length.
    apply vadd_zeros_l. apply length_replicate.
  - apply Nat.eqb_neq in Hid. rewrite Hid. cbn [negb masked]. by rewrite IH.
Qed.

Lemma masked_count ids p :
  Forall (λ id, id ≠ 0%nat) ids →
  length (filter (λ b, b = true)
                 (map (λ id, negb (Nat.eqb id 0)) (ids ++ replicate p 0%nat)))
  = length ids.
Proof.
  induction 1 as [|id ids Hid _ IH]; cbn [app map].
  - induction p as [|p IHp]; [done|]. cbn [replicate map Nat.eqb negb].
    by rewrite filter_cons_False.
  - apply Nat.eqb_neq in Hid. rewrite Hid. cbn [negb].
    rewrite filter_cons_True by done. cbn. by rewrite IH.
Qed.

Lemma pool_padded dim ids p :
  Forall (λ id, id ≠ 0%nat) ids →
  pool dim (map (embedding weights dim) (ids ++ replicate p 0%nat))
       (Some (map (λ id, negb (Nat.eqb id 0)) (ids ++ replicate p 0%nat)))
  = mean dim (map (embedding weights dim) ids).
Proof.
  intros Hids. unfold pool, mean.
  by rewrite masked_sum, masked_count, length_map.
Qed.

Lemma word_id_range n w :
  (2 ≤ n)%nat →
  (0 < word_id word_vocabulary (Some n) w < n)%nat.
Proof.
  intros Hn. unfold word_id, kept.
  destruct (index_of w (take (n - 2) word_vocabulary)) as [i|] eqn:E; [|lia].
  apply index_of_Some in E as [_ Hi]. rewrite length_take in Hi. lia.
Qed.

Lemma max_tokens_ge : (2 ≤ max_tokens)%nat.
Proof. apply Nat.leb_le. vm_compute. reflexivity. Qed.

Lemma word_ids_range title :
  Forall (λ id, (0 < id < max_tokens)%nat)
         (word_ids split word_vocabulary (Some max_tokens) title).
Proof.
  unfold word_ids. apply Forall_map, Forall_true. intros w.
  apply word_id_range, max_tokens_ge.
Qed.

Lemma padded_in_range rows :
  Forall (Forall (λ id, (0 < id < max_tokens)%nat)) rows →
  forallb (forallb (λ id, Nat.ltb id max_tokens)) (pad_rows rows) = true.
Proof.
  intros Hrows. unfold pad_rows. generalize (longest rows). intros n.
  apply forallb_forall. intros row Hrow.
  apply in_map_iff in Hrow as (ids & <- & Hin).
  apply forallb_forall. intros id Hid. apply Nat.ltb_lt.
  unfold pad in Hid. apply in_app_or in Hid as [Hid|Hid].
  - rewrite Forall_forall in Hrows. apply list_elem_of_In in Hin.
    specialize (Hrows ids Hin). rewrite Forall_forall in Hrows.
    apply list_elem_of_In in Hid. by apply Hrows.
  - apply list_elem_of_In, elem_of_replicate in Hid as [-> _].
    pose proof max_tokens_ge. lia.
Qed.

(** C7.  The title text model is a sequence of exactly three layers: text
    vectorization, embedding, averaging.  On every batch of titles it yields,
    for each title, the componentwise mean of the embeddings of the title's
    word ids, whatever the other titles of the batch are; every word id lies
    inside the embedding table, and every row has 32 components. *)
Theorem title_text_embedding_is_mean (batch : list string) :
  title_text_embedding
  = [TextVectorization (Some max_tokens); Embedding max_tokens 32 true;
     GlobalAveragePooling1D]
  ∧ sequential split word_vocabulary weights title_text_embedding (TStrings batch)
    = Some (TVec (map (λ title,
                         mean 32 (map (embedding weights 32)
                                      (word_ids split word_vocabulary
                                                (Some max_tokens) title)))
                      batch))
  ∧ (∀ title,
       Forall (λ id, (id < max_tokens)%nat)
              (word_ids split word_vocabulary (Some max_tokens) title)
       ∧ length (mean 32 (map (embedding weights 32)
                              (word_ids split word_vocabulary
                                        (Some max_tokens) title))) = 32%nat).
Proof.
  split; [done|]. split.
  - unfold title_text_embedding. cbn [sequential run_layer].
    rewrite padded_in_range by (apply Forall_map, Forall_true, word_ids_range).
    cbn [sequential run_layer]. do 2 f_equal.
    unfold pad_rows. generalize (longest (map (word_ids split word_vocabulary
                                                 (Some max_tokens)) batch)).
    intros n. induction batch as [|title titles IH]; [done|].
    cbn [map zip_with]. rewrite IH. f_equal.
    unfold pad. apply pool_padded.
    eapply Forall_impl; [apply word_ids_range|]. cbv beta. lia.
  - intros title. split.
    + eapply Forall_impl; [apply word_ids_range|]. cbv beta. lia.
    + unfold mean. rewrite length_map. apply vsum_length.
      apply Forall_map, Forall_true. intros id. apply embedding_length.
Qed.

End Featurization.

Lemma categorical_lookups_total_witness :
  Featurization.string_lookup toy_fingerprint ["Star Wars (1977)"] "Heat (1995)" = 1%nat
  ∧ (2 ≤ Featurization.string_lookup toy_fingerprint ["Star Wars (1977)"]
                                      "Star Wars (1977)")%nat.
Proof.
  split.
  - apply (categorical_lookups_total toy_fingerprint ["Star Wars (1977)"] "Heat (1995)").
    unfold Featurization.get_vocabulary. intros Hin.
    repeat (apply elem_of_cons in Hin as [Hin|Hin]; [discriminate|]).
    by apply elem_of_nil in Hin.
  - apply (categorical_lookups_total toy_fingerprint ["Star Wars (1977)"]
             "Star Wars (1977)"); [apply list_elem_of_here|discriminate].
Defined.

(** Three titles in one batch: the shorter rows are padded with 0, the id of
    no word; "trek" is not in the vocabulary and gets the OOV id 1. *)
Example text_vectorization_pads :
  Featurization.run_layer toy_split toy_words toy_weights
    (Featurization.TextVectorization (Some Featurization.max_tokens))
    (Featurization.TStrings ["the star wars"; "star trek"; EmptyString])
  = Some (Featurization.TIds [[2; 3; 4]; [3; 1; 0]; [0; 0; 0]]%nat).
Proof. vm_compute. reflexivity. Qed.

(** * The timestamp buckets and the assembled models *)

Section Featurization_Models.
Import Featurization Featurization_Models.
Variable fingerprint : string → N.
Variable split : string → list string.
Variable title_vocabulary user_vocabulary word_vocabulary : list string.
Variable timestamps : list Z.
(** Rounding to float32 keeps the order. *)
Variable float32 : Q → Q.
Hypothesis float32_monotone : ∀ x y, (x <= y)%Q → (float32 x <= float32 y)%Q.

Lemma reduce_max l init :
  (init ≤ reduce init Z.max l)%Z
  ∧ Forall (λ t, (t ≤ reduce init Z.max l)%Z) l
  ∧ (reduce init Z.max l = init ∨ reduce init Z.max l ∈ l).
Proof.
  unfold reduce. revert init.
  induction l as [|x l IH]; intros init; cbn [fold_left].
  - split; [lia|]. split; [constructor|by left].
  - destruct (IH (Z.max init x)) as (H1 & H2 & H3). split; [lia|]. split.
    + constructor; [lia|done].
    + destruct H3 as [H3|H3]; [|right; apply elem_of_cons; auto].
      rewrite H3. destruct (Z.max_spec init x) as [[_ E]|[_ E]]; rewrite E.
      * right. apply list_elem_of_here.
      * by left.
Qed.

Lemma reduce_min l init :
  (reduce init Z.min l ≤ init)%Z
  ∧ Forall (λ t, (reduce init Z.min l ≤ t)%Z) l
  ∧ (reduce init Z.min l = init ∨ reduce init Z.min l ∈ l).
Proof.
  unfold reduce. revert init.
  induction l as [|x l IH]; intros init; cbn [fold_left].
  - split; [lia|]. split; [constructor|by left].
  - destruct (IH (Z.min init x)) as (H1 & H2 & H3). split; [lia|]. split.
    + constructor; [lia|done].
    + destruct H3 as [H3|H3]; [|right; apply elem_of_cons; auto].
      rewrite H3. destruct (Z.min_spec init x) as [[_ E]|[_ E]]; rewrite E.
      * by left.
      * right. apply list_elem_of_here.
Qed.

Lemma timestamps_ordered : timestamps ≠ [] → (min_timestamp timestamps ≤ max_timestamp timestamps)%Z.
Proof.
  destruct timestamps as [|t ts] eqn:E; [done|]. intros _.
  unfold min_timestamp, max_timestamp.
  destruct (reduce_max (t :: ts) 0) as (_ & Hmax & _).
  destruct (reduce_min (t :: ts) 1000000000) as (_ & Hmin & _).
  apply Forall_cons_1 in Hmax as [Hmax _]. apply Forall_cons_1 in Hmin as [Hmin _].
  lia.
Qed.

(** ** np.linspace *)

Lemma linspace_length a b n : length (linspace a b n) = n.
Proof. unfold linspace. by rewrite length_map, length_seq. Qed.


Lemma step_nonneg a b (m : nat) : (a <= b)%Q → (0 <= (b - a) / inject_Z (Z.of_nat m))%Q.
Proof.
  intros Hab. unfold Qdiv. apply Qmult_le_0_compat; [lra|].
  apply Qinv_le_0_compat. change 0%Q with (inject_Z 0). rewrite <- Zle_Qle. lia.
Qed.

Lemma steps_span a b (m : nat) :
  (0 < m)%nat → (inject_Z (Z.of_nat m) * ((b - a) / inject_Z (Z.of_nat m)) == b - a)%Q.
Proof.
  intros Hm. field. change 0%Q with (inject_Z 0). rewrite inject_Z_injective. lia.
Qed.


Lemma map_seq_sorted (f : nat → Q) start n :
  (∀ i j, (i ≤ j)%nat → (f i <= f j)%Q) →
  StronglySorted Qle (map f (seq start n)).
Proof.
  intros Hf. revert start. induction n as [|n IH]; intros start; cbn [seq map].
  - constructor.
  - constructor; [apply IH|].
    apply Forall_forall. intros x Hx.
    apply list_elem_of_In, in_map_iff in Hx as (j & <- & Hj). apply in_seq in Hj.
    apply Hf. lia.
Qed.

Lemma linspace_sorted a b n : (a <= b)%Q → StronglySorted Qle (linspace a b n).
Proof.
  intros Hab. unfold linspace. apply map_seq_sorted. intros i j Hij.
  pose proof (step_nonneg a b (n - 1) Hab) as Hstep.
  assert (inject_Z (Z.of_nat i) <= inject_Z (Z.of_nat j))%Q as Hq.
  { rewrite <- Zle_Qle. lia. }
  revert Hstep. generalize ((b - a) / inject_Z (Z.of_nat (n - 1)))%Q.
  intros s Hstep. nra.
Qed.

(** ** Discretization *)



Lemma bucketize_mono bs x y :
  (x <= y)%Q → (bucketize float32 bs x ≤ bucketize float32 bs y)%nat.
Proof.
  intros Hxy. apply float32_monotone in Hxy.
  induction bs as [|b bs IH]; cbn [bucketize]; [lia|].
  destruct (Qle_bool (float32 b) (float32 x)) eqn:E; [|lia].
  apply Qle_bool_iff in E.
  assert (Qle_bool (float32 b) (float32 y) = true) as ->
    by (apply Qle_bool_iff; lra).
  lia.
Qed.

(** Among boundaries sorted as float32 numbers the bucket of [x] is the
    number of boundaries that are not above [x] in that precision. *)
Lemma bucketize_sorted bs x :
  StronglySorted Qle (map float32 bs) →
  bucketize float32 bs x
  = length (filter (λ b, Qle_bool (float32 b) (float32 x) = true) bs).
Proof.
  induction bs as [|b bs IH]; cbn [bucketize map]; [done|].
  intros Hs. apply StronglySorted_inv in Hs as [Hs Hb].
  destruct (Qle_bool (float32 b) (float32 x)) eqn:E.
  - rewrite filter_cons_True by done. cbn [length]. by rewrite IH.
  - rewrite filter_cons_False by (by rewrite E).
    clear IH Hs. induction bs as [|c bs IH]; [done|].
    cbn [map] in Hb. apply Forall_cons_1 in Hb as [Hc Hb].
    rewrite filter_cons_False; [by apply IH|].
    intros Hcx. apply Qle_bool_iff in Hcx.
    assert (Qle_bool (float32 b) (float32 x) = true) as Hbx
      by (apply Qle_bool_iff; lra).
    congruence.
Qed.

Lemma map_float32_sorted l :
  StronglySorted Qle l → StronglySorted Qle (map float32 l).
Proof.
  induction 1 as [|x l _ IH Hx]; cbn [map]; constructor; [done|].
  apply Forall_map. eapply Forall_impl; [exact Hx|]. cbv beta.
  intros y Hy. by apply float32_monotone.
Qed.


Lemma sorted_head_last (x : Q) l y :
  StronglySorted Qle (x :: l) → last (x :: l) = Some y → (x <= y)%Q.
Proof.
  intros Hs Hy. apply StronglySorted_inv in Hs as [_ Hx].
  destruct l as [|z l]; [injection Hy as <-; lra|].
  rewrite last_cons_cons in Hy. apply last_Some_elem_of in Hy.
  rewrite Forall_forall in Hx. by apply Hx.
Qed.

Lemma linspace_first a b n :
  ∃ first rest, linspace a b (S n) = first :: rest ∧ (first == a)%Q.
Proof.
  unfold linspace. cbn [seq map]. eexists _, _. split; [done|].
  change (inject_Z (Z.of_nat 0)) with 0%Q. lra.
Qed.

Lemma linspace_last a b n :
  ∃ x, last (linspace a b (S (S n))) = Some x ∧ (x == b)%Q.
Proof.
  unfold linspace. rewrite (seq_S (S n)), map_app. cbn [map].
  rewrite last_snoc. eexists. split; [done|].
  replace (S (S n) - 1)%nat with (0 + S n)%nat by lia.
  pose proof (steps_span a b (S n) ltac:(lia)) as Hspan.
  cbn [Nat.add]. lra.
Qed.

Lemma embedding_layer_in_range weights n dim ids :
  Forall (λ id, (id < n)%nat) ids →
  embedding_layer weights n dim ids = Some (map (embedding weights dim) ids).
Proof.
  intros Hids. unfold embedding_layer.
  assert (forallb (λ id, Nat.ltb id n) ids = true) as ->; [|done].
  apply forallb_forall. intros id Hid. apply Nat.ltb_lt.
  rewrite Forall_forall in Hids. by apply Hids, list_elem_of_In.
Qed.

Lemma buckets_length : length (timestamp_buckets timestamps) = 1000%nat.
Proof. apply linspace_length. Qed.

Lemma buckets_sorted :
  timestamps ≠ [] → StronglySorted Qle (timestamp_buckets timestamps).
Proof.
  intros Hne. apply linspace_sorted. rewrite <- Zle_Qle.
  by apply timestamps_ordered.
Qed.





(** X1.  The reductions over the ratings bound every timestamp of the
    dataset; started from 0 and from 10^9, they give the largest and the
    smallest timestamp only when one is non-negative, respectively at most
    10^9, and give the starting value otherwise. *)
Theorem timestamp_range :
  Forall (λ t, (min_timestamp timestamps ≤ t ≤ max_timestamp timestamps)%Z) timestamps
  ∧ (0 ≤ max_timestamp timestamps)%Z
  ∧ (min_timestamp timestamps ≤ 1000000000)%Z
  ∧ (max_timestamp timestamps = 0%Z ∨ max_timestamp timestamps ∈ timestamps)
  ∧ (min_timestamp timestamps = 1000000000%Z ∨ min_timestamp timestamps ∈ timestamps).
Proof.
  unfold min_timestamp, max_timestamp.
  destruct (reduce_max timestamps 0) as (H1 & H2 & H3).
  destruct (reduce_min timestamps 1000000000) as (H4 & H5 & H6).
  split; [|done].
  rewrite Forall_forall in H2, H5. apply Forall_forall. intros t Ht.
  specialize (H2 t Ht). specialize (H5 t Ht). cbv beta in *. lia.
Qed.

(** X2.  The bucket boundaries are 1000 numbers from the smallest to the
    largest timestamp; over a dataset that is not empty they are sorted, as
    the discretization layer needs them, and over an empty dataset they are
    not: they run from 10^9 down to 0. *)
Theorem timestamp_buckets_grid :
  length (timestamp_buckets timestamps) = 1000%nat
  ∧ (∃ first rest, timestamp_buckets timestamps = first :: rest
                   ∧ (first == inject_Z (min_timestamp timestamps))%Q)
  ∧ (∃ x, last (timestamp_buckets timestamps) = Some x
          ∧ (x == inject_Z (max_timestamp timestamps))%Q)
  ∧ (timestamps ≠ [] → StronglySorted Qle (timestamp_buckets timestamps))
  ∧ (timestamps = [] → ¬ StronglySorted Qle (timestamp_buckets timestamps)).
Proof.
  split; [apply buckets_length|]. split; [apply linspace_first|].
  split; [apply linspace_last|]. split; [apply buckets_sorted|].
  intros Hnil Hs.
  destruct (linspace_first (inject_Z (min_timestamp timestamps))
              (inject_Z (max_timestamp timestamps)) 999) as (b & rest & E & Hb).
  destruct (linspace_last (inject_Z (min_timestamp timestamps))
              (inject_Z (max_timestamp timestamps)) 998) as (x & Hlast & Hx).
  unfold timestamp_buckets in Hs. rewrite E in Hs, Hlast.
  pose proof (sorted_head_last _ _ _ Hs Hlast) as Hle.
  rewrite Hb, Hx, <- Zle_Qle in Hle. revert Hle. rewrite Hnil. done.
Qed.


(** X4.  Over a dataset that is not empty, discretization keeps the order
    of the timestamps, and the bucket of a timestamp is the number of
    boundaries that are not above it in the precision of the comparison,
    float32. *)
Theorem discretization_counts_boundaries (t1 t2 : Z) :
  timestamps ≠ [] →
  ((t1 ≤ t2)%Z →
   (bucketize float32 (timestamp_buckets timestamps) (inject_Z t1)
    ≤ bucketize float32 (timestamp_buckets timestamps) (inject_Z t2))%nat)
  ∧ bucketize float32 (timestamp_buckets timestamps) (inject_Z t1)
    = length (filter (λ b, Qle_bool (float32 b) (float32 (inject_Z t1)) = true)
                     (timestamp_buckets timestamps)).
Proof.
  intros Hne. split.
  - intros Hle. apply bucketize_mono. by rewrite <- Zle_Qle.
  - by apply bucketize_sorted, map_float32_sorted, buckets_sorted.
Qed.


(** ** Lookups followed by an embedding *)

Lemma string_lookup_range adapted s :
  (string_lookup fingerprint adapted s < vocab_size adapted)%nat.
Proof.
  unfold string_lookup, vocab_size, get_vocabulary, num_oov_indices.
  cbn [length]. rewrite N.mod_1_r. cbn [N.to_nat].
  destruct (String.eqb_spec s mask_token); [lia|].
  destruct (index_of s adapted) as [i|] eqn:E; [|lia].
  apply index_of_Some in E as [_ Hi]. lia.
Qed.

Lemma lookup_then_embedding weights adapted n batch :
  (vocab_size adapted ≤ n)%nat →
  embedding_layer weights n 32 (map (string_lookup fingerprint adapted) batch)
  = Some (map (λ s, embedding weights 32 (string_lookup fingerprint adapted s)) batch).
Proof.
  intros Hn. rewrite embedding_layer_in_range; [by rewrite map_map|].
  apply Forall_map, Forall_true. intros s. cbv beta.
  pose proof (string_lookup_range adapted s). lia.
Qed.

Lemma title_text_runs weights batch :
  sequential split word_vocabulary weights title_text_embedding (TStrings batch)
  = Some (TVec (map (λ title,
                       mean 32 (map (embedding weights 32)
                                    (word_ids split word_vocabulary
                                              (Some max_tokens) title)))
                    batch)).
Proof.
  unfold title_text_embedding. cbn [sequential run_layer].
  rewrite padded_in_range by (apply Forall_map, Forall_true, word_ids_range).
  cbn [sequential run_layer]. do 2 f_equal.
  unfold pad_rows. generalize (longest (map (word_ids split word_vocabulary
                                               (Some max_tokens)) batch)).
  intros n. induction batch as [|title titles IH]; [done|].
  cbn [map zip_with]. rewrite IH. f_equal.
  unfold pad. apply pool_padded.
  eapply Forall_impl; [apply word_ids_range|]. cbv beta. lia.
Qed.

Lemma zip_with_app_map {A B} (f g : A → list B) l :
  zip_with app (map f l) (map g l) = map (λ x, f x ++ g x) l.
Proof. induction l as [|x l IH]; [done|]. cbn [map zip_with]. by rewrite IH. Qed.

(** X6.  A lookup followed by an embedding whose table has [vocab_size]
    rows never indexes outside the table: the title model of the notebook,
    the title embedding of MovieModel and the user embedding of UserModel
    give one row of 32 numbers for every string of every batch. *)
Theorem lookup_models_total (weights : nat → nat → Qc) (batch : list string) :
  movie_title_model fingerprint title_vocabulary weights batch
  = Some (map (λ s, embedding weights 32
                      (movie_title_lookup fingerprint title_vocabulary s)) batch)
  ∧ title_embedding fingerprint title_vocabulary weights batch
    = movie_title_model fingerprint title_vocabulary weights batch
  ∧ user_embedding fingerprint user_vocabulary weights batch
    = Some (map (λ s, embedding weights 32
                        (user_id_lookup fingerprint user_vocabulary s)) batch)
  ∧ ∀ s, length (embedding weights 32 s) = 32%nat.
Proof.
  split; [|split; [|split]].
  - by apply lookup_then_embedding.
  - done.
  - by apply lookup_then_embedding.
  - intros s. apply embedding_length.
Qed.

(** X7.  Two strings of the vocabulary, other than the mask token, get the
    same row only when they are the same string; a string outside the
    vocabulary gets row 1, which no string of the vocabulary gets. *)
Theorem lookup_separates (adapted : list string) (s t : string) :
  s ∈ adapted → s ≠ mask_token →
  (t ∈ adapted → t ≠ mask_token →
   string_lookup fingerprint adapted s = string_lookup fingerprint adapted t →
   s = t)
  ∧ (t ∉ adapted → t ≠ mask_token →
     string_lookup fingerprint adapted t = 1%nat
     ∧ string_lookup fingerprint adapted s ≠ 1%nat).
Proof.
  intros Hs Hsm. unfold string_lookup, num_oov_indices.
  change (N.of_nat 1) with 1%N. rewrite !N.mod_1_r. cbn [N.to_nat].
  destruct (String.eqb_spec s mask_token); [done|].
  destruct (index_of_elem s adapted Hs) as [i Hi]. rewrite Hi.
  apply index_of_Some in Hi as [Hi _].
  split.
  - intros Ht Htm.
    destruct (String.eqb_spec t mask_token); [done|].
    destruct (index_of_elem t adapted Ht) as [j Hj]. rewrite Hj.
    apply index_of_Some in Hj as [Hj _].
    intros E. assert (i = j) as -> by lia. congruence.
  - intros Ht Htm.
    destruct (String.eqb_spec t mask_token); [done|].
    destruct (index_of t adapted) as [j|] eqn:Hj.
    + apply index_of_Some in Hj as [Hj _]. exfalso. apply Ht.
      by eapply list_elem_of_lookup_2.
    + split; [done|lia].
Qed.

(** X8.  The user id model of the notebook looks ids up in a table of
    200000 rows, whatever the vocabulary: it gives a row for every id of
    every batch as long as the vocabulary, with its two reserved entries,
    has at most 200000 entries, and it reads none of the rows from
    [vocab_size] on. *)
Theorem user_id_model_in_range (weights : nat → nat → Qc) (batch : list string) :
  (N.of_nat (vocab_size user_vocabulary) ≤ num_hashing_bins)%N →
  user_id_model fingerprint user_vocabulary weights batch
  = Some (map (λ s, embedding weights 32
                      (user_id_lookup fingerprint user_vocabulary s)) batch)
  ∧ Forall (λ s, (user_id_lookup fingerprint user_vocabulary s
                  < vocab_size user_vocabulary)%nat) batch.
Proof.
  intros Hsize. split.
  - apply lookup_then_embedding. lia.
  - apply Forall_true. intros s. apply string_lookup_range.
Qed.

(** X9.  MovieModel.call joins, for every title of the batch, the 32 numbers
    of the title's embedding and the 32 numbers of the mean of its word
    embeddings: it fails on no batch, and gives as many rows as the batch has
    titles, each of 64 numbers. *)
Theorem movie_model_call_rows (title_weights text_weights : nat → nat → Qc)
    (batch : list string) :
  let row title :=
    map Some (embedding title_weights 32
                (movie_title_lookup fingerprint title_vocabulary title))
    ++ mean 32 (map (embedding text_weights 32)
                    (word_ids split word_vocabulary (Some max_tokens) title)) in
  MovieModel_call fingerprint split title_vocabulary word_vocabulary
                  title_weights text_weights batch
  = Some (map row batch)
  ∧ ∀ title, length (row title) = 64%nat.
Proof.
  cbv zeta. split.
  - unfold MovieModel_call, title_embedding.
    rewrite lookup_then_embedding by done. rewrite title_text_runs.
    unfold concat. cbn [forallb]. rewrite !length_map, Nat.eqb_refl.
    cbn [andb foldl]. f_equal.
    rewrite map_map.
    apply (zip_with_app_map
             (λ title, map Some (embedding title_weights 32
                                   (movie_title_lookup fingerprint title_vocabulary title)))
             (λ title, mean 32 (map (embedding text_weights 32)
                                    (word_ids split word_vocabulary
                                              (Some max_tokens) title)))).
  - intros title. rewrite length_app, length_map, embedding_length.
    unfold mean. rewrite length_map, vsum_length; [done|].
    apply Forall_map, Forall_true. intros id. apply embedding_length.
Qed.

End Featurization_Models.

Lemma timestamp_buckets_grid_witness :
  StronglySorted Qle (Featurization_Models.timestamp_buckets toy_timestamps)
  ∧ ¬ StronglySorted Qle (Featurization_Models.timestamp_buckets []).
Proof.
  split.
  - apply (timestamp_buckets_grid toy_timestamps). discriminate.
  - apply (timestamp_buckets_grid []). reflexivity.
Defined.

Lemma toy_float32_monotone x y : (x <= y)%Q → (toy_float32 x <= toy_float32 y)%Q.
Proof.
  intros Hxy. unfold toy_float32. rewrite <- Zle_Qle.
  apply Z.mul_le_mono_nonneg_l; [lia|].
  apply Z.div_le_mono; [lia|]. by apply Qfloor_resp_le.
Qed.


Lemma discretization_counts_boundaries_witness :
  (Featurization_Models.bucketize toy_float32
     (Featurization_Models.timestamp_buckets toy_timestamps) (inject_Z 874724710)
   ≤ Featurization_Models.bucketize toy_float32
       (Featurization_Models.timestamp_buckets toy_timestamps) (inject_Z 881250949))%nat.
Proof.
  apply (discretization_counts_boundaries toy_timestamps toy_float32
           toy_float32_monotone 874724710 881250949);
    [discriminate|lia].
Defined.


Lemma lookup_separates_witness :
  Featurization.string_lookup toy_fingerprint toy_users "7" = 1%nat
  ∧ Featurization.string_lookup toy_fingerprint toy_users "138" ≠ 1%nat.
Proof.
  apply (lookup_separates toy_fingerprint toy_users "138" "7").
  - apply list_elem_of_here.
  - discriminate.
  - intros Hin. repeat (apply elem_of_cons in Hin as [Hin|Hin]; [discriminate|]).
    by apply elem_of_nil in Hin.
  - discriminate.
Defined.

Lemma user_id_model_in_range_witness :
  Featurization_Models.user_id_model toy_fingerprint toy_users toy_weights ["92"; "7"]
  = Some (map (λ s, Featurization.embedding toy_weights 32
                      (Featurization_Models.user_id_lookup toy_fingerprint toy_users s))
              ["92"; "7"]).
Proof.
  apply (user_id_model_in_range toy_fingerprint toy_users toy_weights ["92"; "7"]).
  vm_compute. discriminate.
Defined.

(** * The bucket notebook, cell by cell *)

Section Bucket_Cells.
Context `{World}.
Import Create_S3_Bucket.

Lemma wp_conj {A} (c : py A) (Φ Ψ : result A → kernel → Prop) k :
  wp c Φ k → wp c Ψ k → wp c (λ r k', Φ r k' ∧ Ψ r k') k.
Proof. unfold wp. auto. Qed.

Lemma run_cells_cons c cs k :
  run_cells (c :: cs) k
  = ((run_cell c k).1 :: (run_cells cs (run_cell c k).2).1,
     (run_cells cs (run_cell c k).2).2).
Proof.
  cbn [run_cells]. destruct (run_cell c k) as [r k1]. cbn [fst snd].
  by destruct (run_cells cs k1) as [rs k2].
Qed.

(** Every request of the creation cell that names a bucket names the one
    made of the region and the account the cell has read. *)
Lemma create_cell_bucket_name k :
  wp (run_cell cell_create)
     (λ r k', ∃ new,
        log k' = log k ++ new
        ∧ ∀ op, op ∈ bucket_ops new →
            ∃ region account,
              ns k' !! "region" = Some (VStr region)
              ∧ ns k' !! "account_id" = Some (VStr account)
              ∧ op.1.2 = VStr ((("airflow-" +:+ region) +:+ "-") +:+ account)) k.
Proof.
  unfold run_cell. cbn [compile cell_create from_import import exec].
  unfold public_access_block. wp_name_post.
  wp_walk ltac:(subst Φ; cbv beta; wp_norm).
  all: eexists; split; [explicit_log k|].
  all: cbn [bucket_ops omap bucket_op assoc String.eqb Ascii.eqb Bool.eqb
            list_omap].
  all: intros op Hin.
  all: repeat (apply elem_of_cons in Hin as [->|Hin];
               [eexists _, _; lookup;
                try match goal with Hx : default _ _ = VStr _ |- _ => rewrite Hx end;
                split; [done|]; split; [done|]; reflexivity|]).
  all: by apply elem_of_nil in Hin.
Qed.

Lemma create_cell_frame k :
  wp (run_cell cell_create) (λ r k', stored k' = stored k) k.
Proof.
  unfold run_cell. cbn [compile cell_create from_import import exec].
  unfold public_access_block. wp_name_post.
  wp_walk ltac:(subst Φ; cbv beta; wp_norm; done).
Qed.

(** X10.  Every request of the creation cell that names a bucket names
    "airflow-" + region + "-" + account_id, for the region and the account the
    cell has read, both strings: a region or an account that is not a string
    ends the cell before any bucket is named. *)
Theorem bucket_named_after_region_and_account k op :
  op ∈ bucket_ops (drop (length (log k)) (log (run_cell cell_create k).2)) →
  ∃ region account,
    ns (run_cell cell_create k).2 !! "region" = Some (VStr region)
    ∧ ns (run_cell cell_create k).2 !! "account_id" = Some (VStr account)
    ∧ op.1.2 = VStr ((("airflow-" +:+ region) +:+ "-") +:+ account).
Proof.
  destruct (create_cell_bucket_name k) as (new & Hlog & Hops).
  rewrite Hlog, drop_app_length. apply Hops.
Qed.

(** X11.  In a run of the notebook from a fresh kernel in which the creation
    cell completes, [%store] keeps exactly five variables for the other
    notebooks: the bucket name, the three paths s3://<bucket>,
    s3://<bucket>/dags and s3://<bucket>/dags/pipeline, and the flag with the
    value it has at the end of the run; the shell command lists
    s3://<bucket>. *)
Theorem bucket_paths_stored w0 :
  (run_cells notebook (fresh_kernel w0)).1 !! 0%nat = Some (Done tt) →
  ∃ b ok,
    stored (run_cells notebook (fresh_kernel w0)).2
    = list_to_map
        [("setup_s3_bucket_passed", VBool ok);
         ("s3_mwaa_pipeline_private_path", VStr ("s3://" +:+ b +:+ "/dags/pipeline"));
         ("s3_mwaa_dags_private_path", VStr ("s3://" +:+ b +:+ "/dags"));
         ("s3_mwaa_private_path", VStr ("s3://" +:+ b));
         ("airflow_bucket_name", VStr b)]
    ∧ ns (run_cells notebook (fresh_kernel w0)).2 !! "setup_s3_bucket_passed"
      = Some (VBool ok)
    ∧ Shell ("aws s3 ls s3://" +:+ b) ∈ log (run_cells notebook (fresh_kernel w0)).2.
Proof.
  change (wps notebook
            (λ rs kf, rs !! 0%nat = Some (Done tt) →
               ∃ b ok,
                 stored kf
                 = list_to_map
                     [("setup_s3_bucket_passed", VBool ok);
                      ("s3_mwaa_pipeline_private_path",
                       VStr ("s3://" +:+ b +:+ "/dags/pipeline"));
                      ("s3_mwaa_dags_private_path", VStr ("s3://" +:+ b +:+ "/dags"));
                      ("s3_mwaa_private_path", VStr ("s3://" +:+ b));
                      ("airflow_bucket_name", VStr b)]
                 ∧ ns kf !! "setup_s3_bucket_passed" = Some (VBool ok)
                 ∧ Shell ("aws s3 ls s3://" +:+ b) ∈ log kf)
            (fresh_kernel w0)).
  unfold notebook. apply wps_cons.
  eapply wp_mono; [apply (wp_conj _ _ _ _ (create_cell_done _) (create_cell_frame _))|].
  cbv beta. intros [[]|ex] k1 [Hk1 Hstored]; [|by apply wps_any].
  destruct (Hk1 eq_refl) as (l & c & b & v1 & v2 & Hlog & Hl & Hs3 & Hc & Hb & Hout).
  clear Hk1. wp_cells.
  all: intros _; wp_norm; lookup.
  all: rewrite Hstored; cbn [fresh_kernel stored].
  all: rewrite ?append_empty.
  - exists b, true. split; [reflexivity|]. split; [done|].
    apply elem_of_app. left. apply elem_of_app. right.
    apply list_elem_of_singleton. reflexivity.
  - exists b, false. split; [reflexivity|]. split; [done|].
    apply elem_of_app. left. apply elem_of_app. right.
    apply list_elem_of_singleton. reflexivity.
Qed.

(** The creation cell when the one request that names a bucket is a rejected
    create_bucket: the cell has bound the client and the bucket name, and
    ends with the error of the service. *)
Lemma create_cell_rejected k :
  wp (run_cell cell_create)
     (λ r k', ∀ b,
        bucket_ops (drop (length (log k)) (log k')) = [("create_bucket", b, false)] →
        ∃ c name e,
          b = VStr name
          ∧ r = Raise (ClientError e)
          ∧ ns k' !! "s3" = Some c ∧ is_foreign c = true
          ∧ ns k' !! "airflow_bucket_name" = Some b
          ∧ stored k' = stored k) k.
Proof.
  unfold run_cell. cbn [compile cell_create from_import import exec].
  unfold public_access_block. wp_name_post.
  wp_walk ltac:(subst Φ; cbv beta; wp_norm).
  all: repeat rewrite <- (app_assoc (log k)); cbn [app].
  all: rewrite ?drop_app_length, ?drop_all.
  all: cbn [bucket_ops omap bucket_op assoc String.eqb Ascii.eqb Bool.eqb list_omap].
  all: intros b Hops; simplify_eq.
  all: eexists _, _, _; lookup; done.
Qed.

(** The verification cell in a kernel that has the client and the bucket
    name. *)
Lemma verify_cell_contract k c b :
  ns k !! "s3" = Some c → is_foreign c = true →
  ns k !! "airflow_bucket_name" = Some b →
  wp (run_cell cell_verify)
     (λ r k',
        r = Done tt
        ∧ ∃ o, log k' = log k ++ [Requested (Invoke c "head_bucket" [] [("Bucket", b)]) o]
               ∧ match o with
                 | Returned v =>
                     ns k' !! "setup_s3_bucket_passed" = Some (VBool true)
                     ∧ out k' = out k ++ [str v]
                 | Rejected e =>
                     ns k' !! "setup_s3_bucket_passed" = ns k !! "setup_s3_bucket_passed"
                     ∧ out k' = out k ++ ["[ERROR] Cannot find bucket " +:+ str b
                                          +:+ " in None due to "
                                          +:+ str_client_error e +:+ "."]
                 end) k.
Proof.
  intros Hs3 Hc Hb.
  unfold run_cell. cbn [compile cell_verify from_import import_from_targets
                        import_names import exec].
  wp_name_post.
  wp_walk ltac:(subst Φ; cbv beta; wp_norm).
  all: split; [done|]; eexists; split; [reflexivity|]; cbv beta iota.
  all: lookup; rewrite ?append_empty; done.
Qed.

(** X12.  When the service rejects create_bucket (the bucket exists already,
    say), the creation cell ends there: in a run of the notebook from a fresh
    kernel no request to block public access is sent, the verification still
    runs on the same bucket name, and the flag, in the kernel and as stored,
    is true if head_bucket is answered. *)
Theorem rejected_creation_skips_public_access_block w0 b :
  bucket_ops (log (run_cell cell_create (fresh_kernel w0)).2)
  = [("create_bucket", b, false)] →
  ∃ e ok,
    (run_cells notebook (fresh_kernel w0)).1 !! 0%nat = Some (Raise (ClientError e))
    ∧ bucket_ops (log (run_cells notebook (fresh_kernel w0)).2)
      = [("create_bucket", b, false); ("head_bucket", b, ok)]
    ∧ ns (run_cells notebook (fresh_kernel w0)).2 !! "setup_s3_bucket_passed"
      = Some (VBool ok)
    ∧ stored (run_cells notebook (fresh_kernel w0)).2 !! "setup_s3_bucket_passed"
      = Some (VBool ok).
Proof.
  intros Hops.
  destruct (create_cell_rejected (fresh_kernel w0) b Hops)
    as (c & name & e & -> & Hr & Hs3 & Hc & Hb & Hstored).
  unfold notebook. rewrite run_cells_cons. cbn [fst snd]. rewrite Hr.
  revert Hops Hs3 Hb Hstored. generalize (run_cell cell_create (fresh_kernel w0)).2.
  intros k1 Hops Hs3 Hb Hstored. exists e.
  change (wps [cell_paths; cell_flag; cell_print_bucket; cell_store_paths; cell_ls;
               cell_verify; cell_store_flag; cell_html; cell_javascript; cell_empty]
            (λ rs kf, ∃ ok,
               (Raise (ClientError e) :: rs) !! 0%nat = Some (Raise (ClientError e))
               ∧ bucket_ops (log kf)
                 = [("create_bucket", VStr name, false); ("head_bucket", VStr name, ok)]
               ∧ ns kf !! "setup_s3_bucket_passed" = Some (VBool ok)
               ∧ stored kf !! "setup_s3_bucket_passed" = Some (VBool ok)) k1).
  wp_cells.
  all: wp_norm; lookup.
  all: unfold bucket_ops; rewrite !omap_app; fold (bucket_ops (log k1)); rewrite Hops.
  - by exists true.
  - by exists false.
Qed.

(** X13.  The verification cell, in any kernel that has the client and the
    bucket name, handles every error of the service: it sends one
    head_bucket request and completes.  Answered, it prints the response and
    sets the flag; rejected, it prints the error line, with None for the
    response, and leaves the flag as it was. *)
Theorem verify_cell_handles_every_error k c b r k' :
  ns k !! "s3" = Some c → is_foreign c = true →
  ns k !! "airflow_bucket_name" = Some b →
  run_cell cell_verify k = (r, k') →
  r = Done tt
  ∧ ∃ o, log k' = log k ++ [Requested (Invoke c "head_bucket" [] [("Bucket", b)]) o]
         ∧ match o with
           | Returned v =>
               ns k' !! "setup_s3_bucket_passed" = Some (VBool true)
               ∧ out k' = out k ++ [str v]
           | Rejected e =>
               ns k' !! "setup_s3_bucket_passed" = ns k !! "setup_s3_bucket_passed"
               ∧ out k' = out k ++ ["[ERROR] Cannot find bucket " +:+ str b
                                    +:+ " in None due to "
                                    +:+ str_client_error e +:+ "."]
           end.
Proof.
  intros Hs3 Hc Hb Hrun.
  exact (wp_run _ _ _ _ _ (verify_cell_contract k c b Hs3 Hc Hb) Hrun).
Qed.

End Bucket_Cells.

Lemma bucket_named_after_region_and_account_witness :
  ∃ region account,
    ns (run_cell Create_S3_Bucket.cell_create (fresh bucket_created)).2 !! "region"
    = Some (VStr region)
    ∧ ns (run_cell Create_S3_Bucket.cell_create (fresh bucket_created)).2 !! "account_id"
      = Some (VStr account)
    ∧ VStr "airflow-us-east-1-123456789012"
      = VStr ((("airflow-" +:+ region) +:+ "-") +:+ account).
Proof.
  apply (@bucket_named_after_region_and_account scripted (fresh bucket_created)
           ("create_bucket", VStr "airflow-us-east-1-123456789012", true)).
  vm_compute. apply list_elem_of_here.
Defined.

Lemma bucket_paths_stored_witness :
  ∃ b ok,
    stored (run_cells Create_S3_Bucket.notebook (fresh bucket_missing)).2
    = list_to_map
        [("setup_s3_bucket_passed", VBool ok);
         ("s3_mwaa_pipeline_private_path", VStr ("s3://" +:+ b +:+ "/dags/pipeline"));
         ("s3_mwaa_dags_private_path", VStr ("s3://" +:+ b +:+ "/dags"));
         ("s3_mwaa_private_path", VStr ("s3://" +:+ b));
         ("airflow_bucket_name", VStr b)]
    ∧ ns (run_cells Create_S3_Bucket.notebook (fresh bucket_missing)).2
         !! "setup_s3_bucket_passed" = Some (VBool ok)
    ∧ Shell ("aws s3 ls s3://" +:+ b)
      ∈ log (run_cells Create_S3_Bucket.notebook (fresh bucket_missing)).2.
Proof.
  apply (@bucket_paths_stored scripted bucket_missing).
  vm_compute. reflexivity.
Defined.

Lemma rejected_creation_skips_public_access_block_witness :
  ∃ e ok,
    (run_cells Create_S3_Bucket.notebook (fresh bucket_owned)).1 !! 0%nat
    = Some (Raise (ClientError e))
    ∧ bucket_ops (log (run_cells Create_S3_Bucket.notebook (fresh bucket_owned)).2)
      = [("create_bucket", VStr "airflow-us-east-1-123456789012", false);
         ("head_bucket", VStr "airflow-us-east-1-123456789012", ok)]
    ∧ ns (run_cells Create_S3_Bucket.notebook (fresh bucket_owned)).2
         !! "setup_s3_bucket_passed" = Some (VBool ok)
    ∧ stored (run_cells Create_S3_Bucket.notebook (fresh bucket_owned)).2
         !! "setup_s3_bucket_passed" = Some (VBool ok).
Proof.
  apply (@rejected_creation_skips_public_access_block scripted bucket_owned).
  vm_compute. reflexivity.
Defined.

Lemma verify_cell_handles_every_error_witness :
  (run_cell Create_S3_Bucket.cell_verify
     (run_cell Create_S3_Bucket.cell_create (fresh bucket_missing)).2).1
  = Done tt.
Proof.
  refine (proj1 (@verify_cell_handles_every_error scripted
                   (run_cell Create_S3_Bucket.cell_create (fresh bucket_missing)).2
                   (VObj "s3") (VStr "airflow-us-east-1-123456789012") _ _
                   _ _ _ (surjective_pairing _))).
  - vm_compute. reflexivity.
  - reflexivity.
  - vm_compute. reflexivity.
Defined.

(** * The IAM notebook from end to end *)

Ltac wp_assoc :=
  lazymatch goal with
  | |- match assoc ?key ?kvs with _ => _ end => destruct (assoc key kvs) eqn:?
  end.

Ltac wp_iam_unfold :=
  progress unfold IAM_Redshift.try_create_role, IAM_Redshift.create_role,
    IAM_Redshift.try_create_policy_s3, IAM_Redshift.try_create_policy_athena,
    IAM_Redshift.create_policy, IAM_Redshift.try_attach_athena,
    IAM_Redshift.try_attach_s3, IAM_Redshift.attach_role_policy,
    IAM_Redshift.on_client_error.

(** A name looked up in the fresh kernel. *)
Ltac wp_fresh :=
  lazymatch goal with
  | |- context [ns (fresh_kernel _) !! _] =>
      cbn [ns fresh_kernel]; rewrite lookup_empty
  end.

(** An [except] clause whose class is whatever the kernel has under the
    name. *)
Ltac wp_class :=
  lazymatch goal with
  | |- if is_class ?v then _ else _ => is_var v; destruct (is_class v) eqn:?
  | |- if is_ClientError_class ?v then _ else _ =>
      is_var v; destruct (is_ClientError_class v) eqn:?
  end.

Ltac wp_walk_iam :=
  repeat (first [wp_fresh | wp_class | wp_step | wp_assoc | wp_iam_unfold]; wp_norm).

(** A run that is of no concern once a cell has raised. *)
Ltac wp_prune :=
  try (apply wps_any; intros ? ? HF; exfalso;
       repeat (apply Forall_cons_1 in HF as [? HF]); discriminate).

Ltac wp_cells_done :=
  repeat (first [ wp_done | wp_cell | wp_post; wp_prune ]; wp_walk_iam).

Ltac iam_cell :=
  unfold run_cell;
  lazymatch goal with |- context [compile (?c _)] => unfold c end;
  cbn [compile from_import import_from_targets import_names import exec];
  wp_name_post; wp_walk_iam; wp_post.

Ltac iam_unbound :=
  let k := fresh "k" in
  let Hk := fresh "Hk" in
  intros k Hk; iam_cell; wp_norm; lookup; done.


Section IAM_Run.
Context `{World}.
Import IAM_Redshift.

(** X14.  In a run of the notebook from a fresh kernel in which all fifteen
    cells complete, seven requests are sent, in this order: the client, the
    role, the role read back, the policy for S3, the policy for Athena, and
    the two attachments to the role DSOAWS_Redshift, first of the Athena
    policy, then of the S3 policy, each with the Arn found under
    ['Policy']['Arn'] in the answer to its create_policy. *)
Theorem complete_run_attaches_created_policies w0 :
  Forall (λ r, r = Done tt) (run_cells notebook (fresh_kernel w0)).1 →
  ∃ iam policy_s3 policy_athena arn_s3 arn_athena,
    requests (log (run_cells notebook (fresh_kernel w0)).2)
    = [Invoke (VModule "boto3") "client" [VStr "iam"] [];
       Invoke iam "create_role" []
         [("RoleName", VStr "DSOAWS_Redshift");
          ("AssumeRolePolicyDocument", VStr (json_dumps assume_role_policy_doc));
          ("Description", VStr "DSOAWS Redshift Role")];
       Invoke iam "get_role" [] [("RoleName", VStr "DSOAWS_Redshift")];
       Invoke iam "create_policy" []
         [("PolicyName", VStr "DSOAWS_RedshiftPolicyToS3");
          ("PolicyDocument", VStr (json_dumps my_redshift_to_s3))];
       Invoke iam "create_policy" []
         [("PolicyName", VStr "DSOAWS_RedshiftPolicyToAthena");
          ("PolicyDocument", VStr (json_dumps my_redshift_to_athena))];
       Invoke iam "attach_role_policy" []
         [("PolicyArn", arn_athena); ("RoleName", VStr "DSOAWS_Redshift")];
       Invoke iam "attach_role_policy" []
         [("PolicyArn", arn_s3); ("RoleName", VStr "DSOAWS_Redshift")]]
    ∧ log (run_cells notebook (fresh_kernel w0)).2 !! 3%nat
      = Some (Requested (Invoke iam "create_policy" []
                           [("PolicyName", VStr "DSOAWS_RedshiftPolicyToS3");
                            ("PolicyDocument", VStr (json_dumps my_redshift_to_s3))])
                        (Returned policy_s3))
    ∧ nested policy_s3 "Policy" "Arn" = Some arn_s3
    ∧ log (run_cells notebook (fresh_kernel w0)).2 !! 4%nat
      = Some (Requested (Invoke iam "create_policy" []
                           [("PolicyName", VStr "DSOAWS_RedshiftPolicyToAthena");
                            ("PolicyDocument", VStr (json_dumps my_redshift_to_athena))])
                        (Returned policy_athena))
    ∧ nested policy_athena "Policy" "Arn" = Some arn_athena.
Proof.
  set (Q := λ kf : kernel,
               ∃ iam policy_s3 policy_athena arn_s3 arn_athena,
                 requests (log kf)
                 = [Invoke (VModule "boto3") "client" [VStr "iam"] [];
                    Invoke iam "create_role" []
                      [("RoleName", VStr "DSOAWS_Redshift");
                       ("AssumeRolePolicyDocument",
                        VStr (json_dumps assume_role_policy_doc));
                       ("Description", VStr "DSOAWS Redshift Role")];
                    Invoke iam "get_role" [] [("RoleName", VStr "DSOAWS_Redshift")];
                    Invoke iam "create_policy" []
                      [("PolicyName", VStr "DSOAWS_RedshiftPolicyToS3");
                       ("PolicyDocument", VStr (json_dumps my_redshift_to_s3))];
                    Invoke iam "create_policy" []
                      [("PolicyName", VStr "DSOAWS_RedshiftPolicyToAthena");
                       ("PolicyDocument", VStr (json_dumps my_redshift_to_athena))];
                    Invoke iam "attach_role_policy" []
                      [("PolicyArn", arn_athena); ("RoleName", VStr "DSOAWS_Redshift")];
                    Invoke iam "attach_role_policy" []
                      [("PolicyArn", arn_s3); ("RoleName", VStr "DSOAWS_Redshift")]]
                 ∧ log kf !! 3%nat
                   = Some (Requested
                             (Invoke iam "create_policy" []
                                [("PolicyName", VStr "DSOAWS_RedshiftPolicyToS3");
                                 ("PolicyDocument", VStr (json_dumps my_redshift_to_s3))])
                             (Returned policy_s3))
                 ∧ nested policy_s3 "Policy" "Arn" = Some arn_s3
                 ∧ log kf !! 4%nat
                   = Some (Requested
                             (Invoke iam "create_policy" []
                                [("PolicyName", VStr "DSOAWS_RedshiftPolicyToAthena");
                                 ("PolicyDocument",
                                  VStr (json_dumps my_redshift_to_athena))])
                             (Returned policy_athena))
                 ∧ nested policy_athena "Policy" "Arn" = Some arn_athena).
  change (wps notebook (λ rs kf, Forall (λ r, r = Done tt) rs → Q kf)
              (fresh_kernel w0)).
  unfold notebook. wp_cells_done.
  all: intros _; subst Q; cbv beta; wp_norm; cbn [fresh_kernel log app].
  all: eexists _, _, _, _, _.
  all: split; [reflexivity|]; split; [reflexivity|].
  all: split; [cbn [nested]; by simplify_option_eq|].
  all: split; [reflexivity|].
  all: cbn [nested]; by simplify_option_eq.
Qed.

End IAM_Run.

Lemma complete_run_attaches_created_policies_witness :
  length (requests (log (run_cells IAM_Redshift.notebook (fresh all_created)).2))
  = 7%nat.
Proof.
  destruct (@complete_run_attaches_created_policies scripted all_created)
    as (iam & policy_s3 & policy_athena & arn_s3 & arn_athena & Hrequests & _).
  - vm_compute. repeat constructor.
  - unfold fresh. rewrite Hrequests. reflexivity.
Defined.

Section IAM_Chain.
Context `{World}.
Import IAM_Redshift.

(** ** Cells by their position *)

Lemma run_cells_take_nth (cs : list cell) n c k :
  cs !! n = Some c →
  (run_cells cs k).1 !! n = Some (run_cell c (run_cells (take n cs) k).2).1.
Proof.
  intros Hc. pose proof (lookup_lt_Some _ _ _ Hc) as Hn.
  rewrite <- (take_drop_middle cs n c Hc) at 1.
  rewrite <- (run_cells_nth (take n cs) c (drop (S n) cs) k).
  f_equal. rewrite length_take. lia.
Qed.

Lemma run_cells_take_S (cs : list cell) n c k :
  cs !! n = Some c →
  (run_cells (take (S n) cs) k).2 = (run_cell c (run_cells (take n cs) k).2).2.
Proof.
  intros Hc. rewrite (take_S_r cs n c Hc), run_cells_app. cbn [snd run_cells].
  destruct (run_cell c _) as [r k1]. done.
Qed.

Lemma run_cells_between (I : kernel → Prop) (cs : list cell) m n k :
  (m ≤ n)%nat →
  Forall (λ c, ∀ k0, I k0 → wp (run_cell c) (λ _ k', I k') k0) (drop m (take n cs)) →
  I (run_cells (take m cs) k).2 → I (run_cells (take n cs) k).2.
Proof.
  intros Hmn Hcs Hm.
  rewrite <- (take_drop m (take n cs)), take_take, Nat.min_l by done.
  rewrite run_cells_app. cbn [snd]. by apply run_cells_invariant.
Qed.

(** The policy handles and the Arns read from them stay unbound up to the
    cells that bind them. *)
Lemma handles_unbound :
  Forall (λ c, ∀ k,
            ns k !! "policy_redshift_s3" = None
            ∧ ns k !! "policy_redshift_s3_arn" = None
            ∧ ns k !! "policy_redshift_athena" = None
            ∧ ns k !! "policy_redshift_athena_arn" = None →
            wp (run_cell c)
               (λ _ k', ns k' !! "policy_redshift_s3" = None
                        ∧ ns k' !! "policy_redshift_s3_arn" = None
                        ∧ ns k' !! "policy_redshift_athena" = None
                        ∧ ns k' !! "policy_redshift_athena_arn" = None) k)
         (take 9 notebook).
Proof.
  cbn [take notebook].
  repeat (constructor;
          [intros k (H1 & H2 & H3 & H4); iam_cell; wp_norm; lookup; done|]).
  constructor.
Qed.

(** A creation cell that does not complete leaves the handle unbound. *)
Lemma create_policy_s3_cell k :
  ns k !! "policy_redshift_s3" = None
  ∧ ns k !! "policy_redshift_s3_arn" = None
  ∧ ns k !! "policy_redshift_athena" = None
  ∧ ns k !! "policy_redshift_athena_arn" = None →
  wp (run_cell cell_create_policy_s3)
     (λ r k', (r ≠ Done tt → ns k' !! "policy_redshift_s3" = None)
              ∧ ns k' !! "policy_redshift_s3_arn" = None
              ∧ ns k' !! "policy_redshift_athena" = None
              ∧ ns k' !! "policy_redshift_athena_arn" = None) k.
Proof.
  intros (H1 & H2 & H3 & H4). iam_cell; wp_norm; lookup.
  all: split; [intros Hr; lookup; done|done].
Qed.

(** Without the handle the Arn is not read. *)
Lemma policy_s3_arn_cell k :
  ns k !! "policy_redshift_s3_arn" = None
  ∧ ns k !! "policy_redshift_athena" = None
  ∧ ns k !! "policy_redshift_athena_arn" = None →
  wp (run_cell cell_policy_s3_arn)
     (λ r k', (ns k !! "policy_redshift_s3" = None →
               ns k' !! "policy_redshift_s3_arn" = None)
              ∧ ns k' !! "policy_redshift_athena" = None
              ∧ ns k' !! "policy_redshift_athena_arn" = None) k.
Proof.
  intros (H2 & H3 & H4). iam_cell; wp_norm; lookup.
  all: split; [intros Hr; lookup; congruence|done].
Qed.

Lemma create_policy_athena_cell k :
  ns k !! "policy_redshift_athena" = None
  ∧ ns k !! "policy_redshift_athena_arn" = None →
  wp (run_cell cell_create_policy_athena)
     (λ r k', (r ≠ Done tt → ns k' !! "policy_redshift_athena" = None)
              ∧ ns k' !! "policy_redshift_athena_arn" = None
              ∧ (ns k !! "policy_redshift_s3_arn" = None →
                 ns k' !! "policy_redshift_s3_arn" = None)) k.
Proof.
  intros (H3 & H4). iam_cell; wp_norm; lookup.
  all: split; [intros Hr; lookup; done|done].
Qed.

Lemma policy_athena_arn_cell k :
  ns k !! "policy_redshift_athena_arn" = None →
  wp (run_cell cell_policy_athena_arn)
     (λ r k', (ns k !! "policy_redshift_athena" = None →
               ns k' !! "policy_redshift_athena_arn" = None)
              ∧ (ns k !! "policy_redshift_s3_arn" = None →
                 ns k' !! "policy_redshift_s3_arn" = None)) k.
Proof.
  intros H4. iam_cell; wp_norm; lookup.
  all: split; [intros Hr; lookup; congruence|done].
Qed.

(** Without the Arn the attachment is not requested: the cell raises an
    error that its handler does not catch. *)
Lemma attach_athena_cell k :
  wp (run_cell cell_attach_athena)
     (λ r k', (ns k !! "policy_redshift_athena_arn" = None →
               (∃ ex, r = Raise ex ∧ ∀ e, ex ≠ ClientError e) ∧ log k' = log k)
              ∧ (ns k !! "policy_redshift_s3_arn" = None →
                 ns k' !! "policy_redshift_s3_arn" = None)) k.
Proof.
  iam_cell; wp_norm; lookup.
  all: split; [intros Hr; try congruence|done].
  all: split; [eexists; split; [done|done]|done].
Qed.

Lemma attach_s3_cell k :
  ns k !! "policy_redshift_s3_arn" = None →
  wp (run_cell cell_attach_s3)
     (λ r k', (∃ ex, r = Raise ex ∧ ∀ e, ex ≠ ClientError e) ∧ log k' = log k) k.
Proof. intros Hk. iam_cell; wp_norm; (split; [eexists; split; [done|done]|done]). Qed.

Lemma wp_at (cs : list cell) n c k (Φ : result unit → kernel → Prop) :
  cs !! n = Some c →
  wp (run_cell c) Φ (run_cells (take n cs) k).2 →
  ∃ r, (run_cells cs k).1 !! n = Some r ∧ Φ r (run_cells (take (S n) cs) k).2.
Proof.
  intros Hc Hwp. exists (run_cell c (run_cells (take n cs) k).2).1. split.
  - by apply run_cells_take_nth.
  - by rewrite (run_cells_take_S cs n c k Hc).
Qed.

(** X15.  A policy whose creation cell does not complete is not attached by
    a run of the notebook from a fresh kernel: the cell that attaches it
    raises an error that is not a ClientError, which its handler does not
    catch, and sends no request.  This is so in particular when the policy
    exists already. *)
Theorem policy_not_created_not_attached w0 :
  ((run_cells notebook (fresh_kernel w0)).1 !! 9%nat ≠ Some (Done tt) →
   (∃ ex, (run_cells notebook (fresh_kernel w0)).1 !! 14%nat = Some (Raise ex)
          ∧ ∀ e, ex ≠ ClientError e)
   ∧ log (run_cells notebook (fresh_kernel w0)).2
     = log (run_cells (take 14 notebook) (fresh_kernel w0)).2)
  ∧ ((run_cells notebook (fresh_kernel w0)).1 !! 11%nat ≠ Some (Done tt) →
     (∃ ex, (run_cells notebook (fresh_kernel w0)).1 !! 13%nat = Some (Raise ex)
            ∧ ∀ e, ex ≠ ClientError e)
     ∧ log (run_cells (take 14 notebook) (fresh_kernel w0)).2
       = log (run_cells (take 13 notebook) (fresh_kernel w0)).2).
Proof.
  set (k0 := fresh_kernel w0).
  assert (ns (run_cells (take 9 notebook) k0).2 !! "policy_redshift_s3" = None
          ∧ ns (run_cells (take 9 notebook) k0).2 !! "policy_redshift_s3_arn" = None
          ∧ ns (run_cells (take 9 notebook) k0).2 !! "policy_redshift_athena" = None
          ∧ ns (run_cells (take 9 notebook) k0).2 !! "policy_redshift_athena_arn" = None)
    as H9.
  { apply (run_cells_invariant
             (λ k, ns k !! "policy_redshift_s3" = None
                   ∧ ns k !! "policy_redshift_s3_arn" = None
                   ∧ ns k !! "policy_redshift_athena" = None
                   ∧ ns k !! "policy_redshift_athena_arn" = None));
      [apply handles_unbound|done]. }
  destruct (wp_at notebook 9 _ k0 _ eq_refl (create_policy_s3_cell _ H9))
    as (r9 & Hr9 & Hs3 & P10).
  destruct (wp_at notebook 10 _ k0 _ eq_refl (policy_s3_arn_cell _ P10))
    as (r10 & _ & Hs3_arn & P11).
  destruct (wp_at notebook 11 _ k0 _ eq_refl (create_policy_athena_cell _ P11))
    as (r11 & Hr11 & Hathena & Hathena_arn & Hs3_11).
  destruct (wp_at notebook 12 _ k0 _ eq_refl (policy_athena_arn_cell _ Hathena_arn))
    as (r12 & _ & Hathena_12 & Hs3_12).
  destruct (wp_at notebook 13 _ k0 _ eq_refl (attach_athena_cell _))
    as (r13 & Hr13 & Hattach & Hs3_13).
  split.
  - intros Hne.
    assert (ns (run_cells (take 14 notebook) k0).2 !! "policy_redshift_s3_arn" = None)
      as H14.
    { apply Hs3_13, Hs3_12, Hs3_11, Hs3_arn, Hs3. congruence. }
    destruct (wp_at notebook 14 _ k0 _ eq_refl (attach_s3_cell _ H14))
      as (r14 & Hr14 & (ex & -> & Hex) & Hlog).
    split; [by exists ex|]. exact Hlog.
  - intros Hne.
    destruct Hattach as [(ex & -> & Hex) Hlog].
    { apply Hathena_12, Hathena. congruence. }
    split; [by exists ex|]. exact Hlog.
Qed.

End IAM_Chain.

Lemma policy_not_created_not_attached_witness :
  ∃ ex, (run_cells IAM_Redshift.notebook (fresh role_exists)).1 !! 14%nat
        = Some (Raise ex)
        ∧ ∀ e, ex ≠ ClientError e.
Proof.
  refine (proj1 (proj1 (@policy_not_created_not_attached scripted role_exists) _)).
  vm_compute. discriminate.
Defined.

(** * The DAG notebook in any order *)

Section DAG_Order.
Context `{World}.
Import Airflow_DAG.

(** X16.  However often and in whatever order cells of the notebook are run
    from a fresh kernel, no dependency between tasks is ever set, and no task
    other than "model" is ever registered: the chain is not built by running
    the cells again or in another order. *)
Theorem dag_never_wired (cs : list cell) w0 :
  Forall (λ c, c ∈ notebook) cs →
  edges (flow (run_cells cs (fresh_kernel w0)).2) = ∅
  ∧ dom (tasks (flow (run_cells cs (fresh_kernel w0)).2)) ⊆ {["model"]}
  ∧ edges (flow (run_cells cs (fresh_kernel w0)).2) ≠ chain.
Proof.
  intros Hcs. destruct (dag_no_task cs w0 Hcs) as [Hedges Htasks].
  split; [done|]. split.
  - rewrite Htasks, dom_empty. apply empty_subseteq.
  - rewrite Hedges. intros E. by apply chain_not_empty.
Qed.

(** X17.  The wiring itself is right.  In a kernel in which the five
    operator names are bound to tasks, the four [set_upstream] cells complete
    and add exactly the four links of the chain over these tasks, in the
    order init, process_op, train_op, model_op, deploy_op; the last cell, in
    the same kernel, adds the first link again and stops at the misspelt
    name. *)
Theorem upstream_cells_link_operands k a b c d e :
  ns k !! "init" = Some (VTask a) →
  ns k !! "process_op" = Some (VTask b) →
  ns k !! "train_op" = Some (VTask c) →
  ns k !! "model_op" = Some (VTask d) →
  ns k !! "deploy_op" = Some (VTask e) →
  (run_cells [cell_process_upstream; cell_train_upstream; cell_model_upstream;
              cell_deploy_upstream] k).1
  = [Done tt; Done tt; Done tt; Done tt]
  ∧ edges (flow (run_cells [cell_process_upstream; cell_train_upstream;
                            cell_model_upstream; cell_deploy_upstream] k).2)
    = {[(a, b); (b, c); (c, d); (d, e)]} ∪ edges (flow k)
  ∧ (ns k !! "processing_op" = None →
     (run_cell cell_dependencies k).1 = Raise (NameError "processing_op")
     ∧ edges (flow (run_cell cell_dependencies k).2) = {[(a, b)]} ∪ edges (flow k)).
Proof.
  intros Hinit Hprocess Htrain Hmodel Hdeploy.
  assert (wps [cell_process_upstream; cell_train_upstream; cell_model_upstream;
               cell_deploy_upstream]
              (λ rs kf, rs = [Done tt; Done tt; Done tt; Done tt]
                        ∧ edges (flow kf)
                          = {[(a, b); (b, c); (c, d); (d, e)]} ∪ edges (flow k)) k)
    as [Hrs Hedges].
  { wp_cells. wp_norm. split; [done|].
    apply set_eq. intros x. rewrite !elem_of_union, !elem_of_singleton. tauto. }
  split; [exact Hrs|]. split; [exact Hedges|].
  intros Hnone. exact (dependencies_cell_stops k a b Hinit Hprocess Hnone).
Qed.

End DAG_Order.

Lemma dag_never_wired_witness :
  edges (flow (run_cells [Airflow_DAG.cell_model; Airflow_DAG.cell_dag;
                          Airflow_DAG.cell_model; Airflow_DAG.cell_model_upstream;
                          Airflow_DAG.cell_dependencies]
                         (fresh [])).2)
  = ∅.
Proof.
  apply (@dag_never_wired scripted
           [Airflow_DAG.cell_model; Airflow_DAG.cell_dag; Airflow_DAG.cell_model;
            Airflow_DAG.cell_model_upstream; Airflow_DAG.cell_dependencies] []).
  unfold Airflow_DAG.notebook. repeat constructor.
Defined.

Lemma upstream_cells_link_operands_witness :
  edges (flow (run_cells [Airflow_DAG.cell_process_upstream;
                          Airflow_DAG.cell_train_upstream;
                          Airflow_DAG.cell_model_upstream;
                          Airflow_DAG.cell_deploy_upstream] operators_bound).2)
  = {[("start", "process"); ("process", "train"); ("train", "model");
      ("model", "deploy")]} ∪ edges (flow operators_bound).
Proof.
  apply (@upstream_cells_link_operands scripted operators_bound
           "start" "process" "train" "model" "deploy"); reflexivity.
Defined.
